(** * Universal unit converter backend: a shallow embedding of [api/main.py]

    The service converts lengths, weights, temperatures and speeds with
    static tables and formulas, rounds what it returns with a
    magnitude-dependent policy, and proxies currency conversion to an
    exchange-rate provider.

    Python's [float] is IEEE 754 binary64; it is embedded as the Standard
    Library's [spec_float] at precision 53 and maximal exponent 1024, whose
    operations are the correctly rounded ones (round to nearest, ties to
    even).  Python's [int] is [Z].  Dictionaries keep their insertion order
    and are association lists.  Exceptions are an explicit result type. *)

From Stdlib Require Import ZArith List String Ascii Bool Lia.
From Stdlib Require Import Sorted Permutation.
From Stdlib Require Import Floats.SpecFloat.
Import ListNotations.
Local Open Scope Z_scope.

Set Implicit Arguments.
Set Warnings "-register-all".

(** ** Binary64 arithmetic *)

Module Float64.

Definition prec : Z := 53.
Definition emax : Z := 1024.

Definition float : Type := spec_float.

Definition add : float -> float -> float := SFadd prec emax.
Definition sub : float -> float -> float := SFsub prec emax.
Definition mul : float -> float -> float := SFmul prec emax.
Definition div : float -> float -> float := SFdiv prec emax.
Definition neg : float -> float := SFopp.
Definition abs : float -> float := SFabs.
Definition valid : float -> bool := valid_binary prec emax.

Definition is_nan (x : float) : bool :=
  match x with S754_nan => true | _ => false end.

Definition is_zero (x : float) : bool :=
  match x with S754_zero _ => true | _ => false end.

(** Neither NaN nor an infinity. *)
Definition is_finite (x : float) : bool :=
  match x with
  | S754_zero _ | S754_finite _ _ _ => true
  | S754_infinity _ | S754_nan => false
  end.

(** [float(z)] for a Python int: the nearest binary64 value. *)
Definition of_int (z : Z) : float := binary_normalize prec emax z 0 false.

(** A positive decimal literal of the source text: [digits] is the digit
    string read as an integer and [frac] the number of digits after the
    point (or the negated exponent), so [1609.344] is [literal 1609344 3]
    and [1e-6] is [literal 1 6].  The value is the binary64 number nearest
    to [digits / 10^frac], as Python's parser produces it. *)
Definition literal (digits : positive) (frac : nat) : float :=
  div (S754_finite false digits 0)
      (S754_finite false (Z.to_pos (10 ^ Z.of_nat frac)) 0).

(** Integer quotient [n / d] rounded to nearest, ties to even
    ([0 <= n], [0 < d]). *)
Definition round_half_even (n d : Z) : Z :=
  let q := n / d in
  let r := n mod d in
  match 2 * r ?= d with
  | Lt => q
  | Gt => q + 1
  | Eq => if Z.even q then q else q + 1
  end.

(** The builtin [round(x, ndigits)] on a float, for [0 <= ndigits]:
    CPython prints [x] correctly rounded to [ndigits] decimals (on the
    exact binary value, ties to even) and reads the decimal string back
    as the nearest binary64 value.  Zeros, infinities and NaN round to
    themselves, and a result that rounds to zero keeps the sign. *)
Definition round (x : float) (ndigits : nat) : float :=
  match x with
  | S754_finite s m e =>
      let p := 10 ^ Z.of_nat ndigits in
      let q := match e with
               | Zneg k => round_half_even (Zpos m * p) (2 ^ Zpos k)
               | _ => Zpos m * p * 2 ^ e
               end in
      match q with
      | Zpos q' =>
          div (S754_finite s q' 0) (S754_finite false (Z.to_pos p) 0)
      | _ => S754_zero s
      end
  | _ => x
  end.

(** Exact comparison of an integer with a float (Python compares the
    mathematical values, without converting the integer). *)
Definition compare_int (z : Z) (x : float) : option comparison :=
  match x with
  | S754_nan => None
  | S754_infinity s => Some (if s then Gt else Lt)
  | S754_zero _ => Some (z ?= 0)
  | S754_finite s m e =>
      let v := if s then Zneg m else Zpos m in
      Some match e with
           | Zneg k => z * 2 ^ Zpos k ?= v
           | _ => z ?= v * 2 ^ e
           end
  end.

End Float64.

(** ** The Python run time the program relies on *)

Module Py.

(** Numbers: [round_result] returns the int [0] on one branch and is
    handed ints as well as floats by the JSON decoder. *)
Inductive number : Type :=
| Int (z : Z)
| Float (f : Float64.float).

Definition num_abs (x : number) : number :=
  match x with
  | Int z => Int (Z.abs z)
  | Float f => Float (Float64.abs f)
  end.

Definition num_neg (x : number) : number :=
  match x with
  | Int z => Int (- z)
  | Float f => Float (Float64.neg f)
  end.

Definition num_compare (x y : number) : option comparison :=
  match x, y with
  | Int a, Int b => Some (a ?= b)
  | Float a, Float b => SFcompare a b
  | Int a, Float b => Float64.compare_int a b
  | Float a, Int b => option_map CompOpp (Float64.compare_int b a)
  end.

(** [x < y] and [x == y] *)
Definition num_lt (x y : number) : bool :=
  match num_compare x y with Some Lt => true | _ => false end.

Definition num_le (x y : number) : bool :=
  match num_compare x y with Some (Lt | Eq) => true | _ => false end.

Definition num_eq (x y : number) : bool :=
  match num_compare x y with Some Eq => true | _ => false end.

(** [round(x, ndigits)]: an int is returned unchanged when
    [0 <= ndigits]. *)
Definition round (x : number) (ndigits : nat) : number :=
  match x with
  | Int z => Int z
  | Float f => Float (Float64.round f ndigits)
  end.

(** Decoded JSON and other dynamically typed values. *)
Inductive object : Type :=
| VNone
| VBool (b : bool)
| VNum (n : number)
| VStr (s : string)
| VList (l : list object)
| VDict (d : list (string * object)).

(** An f-string after interpolation: literal text and the objects that
    were formatted into it, in order.  How [str()] renders an object is
    left symbolic. *)
Inductive piece : Type :=
| Text (s : string)
| Fmt (v : object)
| Repr (v : object).

Definition message : Type := list piece.

Inductive exn : Type :=
| KeyError (key : string)
| ValueError (msg : message)
| TypeError (msg : string)
| AttributeError (msg : string)
| ZeroDivisionError (msg : string)
| OverflowError (msg : string)
| HTTPException (status_code : Z) (detail : message)
| TransportError (msg : string)
| HTTPStatusError (msg : string)
| JSONDecodeError (msg : string).

(** [str(e)] *)
Definition exn_str (e : exn) : message :=
  match e with
  | KeyError key => [Repr (VStr key)]
  | ValueError msg => msg
  | HTTPException _ detail => detail
  | TypeError msg | AttributeError msg | ZeroDivisionError msg
  | OverflowError msg
  | TransportError msg | HTTPStatusError msg | JSONDecodeError msg =>
      [Text msg]
  end.

(** A computation either returns or raises. *)
Inductive result (A : Type) : Type :=
| Ok (a : A)
| Raise (e : exn).

Arguments Ok {A} a.
Arguments Raise {A} e.

Definition bind {A B : Type} (c : result A) (k : A -> result B) : result B :=
  match c with
  | Ok a => k a
  | Raise e => Raise e
  end.

(** [try: c  except Exception as e: handler e] *)
Definition try_except {A : Type} (c : result A) (handler : exn -> result A)
  : result A :=
  match c with
  | Ok a => Ok a
  | Raise e => handler e
  end.

(** Dictionaries, in insertion order. *)
Definition dict (V : Type) : Type := list (string * V).

Fixpoint get {V : Type} (d : dict V) (k : string) : option V :=
  match d with
  | [] => None
  | (k', v) :: d' => if String.eqb k k' then Some v else get d' k
  end.

(** [k in d] *)
Definition contains {V : Type} (d : dict V) (k : string) : bool :=
  match get d k with Some _ => true | None => false end.

(** [d[k]] *)
Definition getitem {V : Type} (d : dict V) (k : string) : result V :=
  match get d k with
  | Some v => Ok v
  | None => Raise (KeyError k)
  end.

(** [list(d.keys())] *)
Definition keys {V : Type} (d : dict V) : list string := map fst d.

(** [x * y] with a float on the left and a table entry on the right
    (the temperature table holds [None]). *)
Definition mul (x : Float64.float) (y : option Float64.float)
  : result Float64.float :=
  match y with
  | Some s => Ok (Float64.mul x s)
  | None =>
      Raise (TypeError
               "unsupported operand type(s) for *: 'float' and 'NoneType'")
  end.

(** [x / y]: float division raises on a zero divisor. *)
Definition truediv (x : Float64.float) (y : option Float64.float)
  : result Float64.float :=
  match y with
  | Some s =>
      if Float64.is_zero s then
        Raise (ZeroDivisionError "float division by zero")
      else Ok (Float64.div x s)
  | None =>
      Raise (TypeError
               "unsupported operand type(s) for /: 'float' and 'NoneType'")
  end.

(** [float(x)], as pydantic coerces a number into a [float] field; an
    int beyond the binary64 range does not convert. *)
Definition to_float (x : number) : result Float64.float :=
  match x with
  | Int z =>
      match Float64.of_int z with
      | S754_infinity _ =>
          Raise (OverflowError "int too large to convert to float")
      | f => Ok f
      end
  | Float f => Ok f
  end.

(** Truth value of an object, as [not x] and [if x] test it. *)
Definition truthy (o : object) : bool :=
  match o with
  | VNone => false
  | VBool b => b
  | VNum (Int z) => negb (z =? 0)
  | VNum (Float f) => negb (Float64.is_zero f)
  | VStr s => negb (String.eqb s EmptyString)
  | VList l => match l with [] => false | _ => true end
  | VDict d => match d with [] => false | _ => true end
  end.

Definition is_none (o : object) : bool :=
  match o with VNone => true | _ => false end.

(** [o.get(k, default)]: only dictionaries have the method. *)
Definition obj_get (o : object) (k : string) (default : object)
  : result object :=
  match o with
  | VDict d => Ok (match get d k with Some v => v | None => default end)
  | _ => Raise (AttributeError "object has no attribute 'get'")
  end.

(** [o.keys()] *)
Definition obj_keys (o : object) : result (list string) :=
  match o with
  | VDict d => Ok (keys d)
  | _ => Raise (AttributeError "object has no attribute 'keys'")
  end.

Fixpoint occurs_in (k s : string) : bool :=
  String.prefix k s
  || match s with
     | EmptyString => false
     | String _ s' => occurs_in k s'
     end.

(** [k in o] for a string [k]: key of a dictionary, element of a list,
    substring of a string; other objects are not containers. *)
Definition obj_contains (o : object) (k : string) : result bool :=
  match o with
  | VDict d => Ok (contains d k)
  | VList l =>
      Ok (existsb (fun x => match x with
                            | VStr s => String.eqb s k
                            | _ => false
                            end) l)
  | VStr s => Ok (occurs_in k s)
  | _ => Raise (TypeError "argument is not iterable")
  end.

(** [o[k]] for a string [k] *)
Definition obj_getitem (o : object) (k : string) : result object :=
  match o with
  | VDict d => getitem d k
  | VList _ | VStr _ => Raise (TypeError "indices must be integers")
  | _ => Raise (TypeError "object is not subscriptable")
  end.

(** The operand of [abs] and [round]: a number, or a bool, which is an
    int. *)
Definition as_number (o : object) : result number :=
  match o with
  | VNum n => Ok n
  | VBool b => Ok (Int (if b then 1 else 0))
  | _ => Raise (TypeError "bad operand type for abs()")
  end.

Fixpoint insert_sorted (x : string) (l : list string) : list string :=
  match l with
  | [] => [x]
  | y :: l' => if String.leb x y then x :: l else y :: insert_sorted x l'
  end.

(** [sorted(l)] on strings *)
Definition sorted (l : list string) : list string :=
  fold_right insert_sorted [] l.

End Py.

Import Py.

Declare Scope py_scope.
Delimit Scope py_scope with py.
Notation "x <- c ;; k" := (bind c (fun x => k))
  (at level 61, c at next level, right associativity) : py_scope.
Local Open Scope py_scope.
Local Open Scope string_scope.

(** ** Constants and supported categories *)

Record category_entry : Type := {
  units : dict (option Float64.float);
  display : string
}.

Definition lit := Float64.literal.

Definition UNIT_CATEGORIES : dict category_entry := [
  ("length", {|
     units := [
       ("meters", Some (lit 10 1));
       ("kilometers", Some (lit 10000 1));
       ("centimeters", Some (lit 1 2));
       ("millimeters", Some (lit 1 3));
       ("miles", Some (lit 1609344 3));
       ("yards", Some (lit 9144 4));
       ("feet", Some (lit 3048 4));
       ("inches", Some (lit 254 4))
     ];
     display := "Length" |});
  ("weight", {|
     units := [
       ("kilograms", Some (lit 10 1));
       ("grams", Some (lit 1 3));
       ("milligrams", Some (lit 1 6));
       ("pounds", Some (lit 45359237 8));
       ("ounces", Some (lit 283495231 10));
       ("stones", Some (lit 635029318 8));
       ("tons", Some (lit 10000 1))
     ];
     display := "Weight" |});
  ("temperature", {|
     units := [
       ("celsius", None);
       ("fahrenheit", None);
       ("kelvin", None)
     ];
     display := "Temperature" |});
  ("speed", {|
     units := [
       ("m/s", Some (lit 10 1));
       ("km/h", Some (lit 277778 6));
       ("mph", Some (lit 44704 5));
       ("ft/s", Some (lit 3048 4));
       ("knots", Some (lit 514444 6))
     ];
     display := "Speed" |})
].

Definition SUPPORTED_UNIT_CATEGORIES : list string := keys UNIT_CATEGORIES.

(** ** Business logic *)

(** The bodies of [convert_length], [convert_weight] and [convert_speed]
    differ only in the category key they look up:
<<
    units = UNIT_CATEGORIES[key]["units"]
    value_base = value * units[from_unit]
    return value_base / units[to_unit]
>> *)
Definition convert_through_base (key : string)
    (value : Float64.float) (from_unit to_unit : string)
  : result Float64.float :=
  entry <- getitem UNIT_CATEGORIES key ;;
  let units := units entry in
  s_from <- getitem units from_unit ;;
  value_base <- Py.mul value s_from ;;
  s_to <- getitem units to_unit ;;
  truediv value_base s_to.

Definition convert_length := convert_through_base "length".
Definition convert_weight := convert_through_base "weight".
Definition convert_speed := convert_through_base "speed".

Definition convert_temperature
    (value : Float64.float) (from_unit to_unit : string)
  : result Float64.float :=
  if from_unit =? to_unit then Ok value
  else
    c <- (if from_unit =? "celsius" then Ok value
          else if from_unit =? "fahrenheit" then
            truediv
              (Float64.mul (Float64.sub value (Float64.of_int 32))
                           (Float64.of_int 5))
              (Some (Float64.of_int 9))
          else if from_unit =? "kelvin" then
            Ok (Float64.sub value (lit 27315 2))
          else
            Raise (ValueError [Text "Unsupported temperature unit: ";
                               Fmt (VStr from_unit)])) ;;
    if to_unit =? "celsius" then Ok c
    else if to_unit =? "fahrenheit" then
      q <- truediv (Float64.mul c (Float64.of_int 9))
                   (Some (Float64.of_int 5)) ;;
      Ok (Float64.add q (Float64.of_int 32))
    else if to_unit =? "kelvin" then
      Ok (Float64.add c (lit 27315 2))
    else
      Raise (ValueError [Text "Unsupported temperature unit: ";
                         Fmt (VStr to_unit)]).

(** Smart rounding for display. *)
Definition round_result (value : number) : number :=
  if num_lt (num_abs value) (Float (lit 1 6)) then Int 0
  else if num_lt (num_abs value) (Int 1) then Py.round value 6
  else if num_lt (num_abs value) (Int 100) then Py.round value 4
  else if num_lt (num_abs value) (Int 10000) then Py.round value 2
  else Py.round value 1.

Definition CONVERSION_FUNC
  : dict (Float64.float -> string -> string -> result Float64.float) := [
  ("length", convert_length);
  ("weight", convert_weight);
  ("temperature", convert_temperature);
  ("speed", convert_speed)
].

(** ** Models for validation *)

Module UnitConversionRequest.

Record t : Type := {
  category : string;
  from_unit : string;
  to_unit : string;
  value : Float64.float
}.

(** The dictionary the root validator receives: the fields that passed
    their own validation ([category] one of the four literals,
    [from_unit] and [to_unit] strings, [value] a float).  A field that
    failed is absent and has an error on record. *)
Record values : Type := {
  get_category : option string;
  get_from_unit : option string;
  get_to_unit : option string;
  get_value : option Float64.float
}.

Definition fmt (o : option string) : piece :=
  Fmt (match o with Some s => VStr s | None => VNone end).

Definition supported {V : Type} (d : dict V) : piece :=
  Fmt (VList (map VStr (keys d))).

(** [x not in d], where [x] may be [None] *)
Definition not_in {V : Type} (o : option string) (d : dict V) : bool :=
  match o with
  | Some k => negb (contains d k)
  | None => true
  end.

Definition validate_units (vs : values) : result values :=
  let category := get_category vs in
  let from_unit := get_from_unit vs in
  let to_unit := get_to_unit vs in
  if not_in category UNIT_CATEGORIES then
    Raise (ValueError [Text "Invalid category '"; fmt category;
                       Text "'. Supported: "; supported UNIT_CATEGORIES])
  else
    entry <- getitem UNIT_CATEGORIES
               (match category with Some c => c | None => EmptyString end) ;;
    let units := units entry in
    if not_in from_unit units then
      Raise (ValueError [Text "from_unit '"; fmt from_unit;
                         Text "' not valid for category '"; fmt category;
                         Text "'. Supported: "; supported units])
    else if not_in to_unit units then
      Raise (ValueError [Text "to_unit '"; fmt to_unit;
                         Text "' not valid for category '"; fmt category;
                         Text "'. Supported: "; supported units])
    else Ok vs.

(** The error on record for a field that failed: it is located at the
    field; its wording is pydantic's and is not modelled. *)
Definition field_error {A : Type} (name : string) (field : option A)
  : list message :=
  match field with
  | None => [[Text name]]
  | Some _ => []
  end.

Definition field_errors (vs : values) : list message :=
  (field_error "category" (get_category vs)
   ++ field_error "from_unit" (get_from_unit vs)
   ++ field_error "to_unit" (get_to_unit vs)
   ++ field_error "value" (get_value vs))%list.

(** Model construction: the field errors and the root validator's error
    are collected; the model exists only when there is none. *)
Definition parse (vs : values) : list message + t :=
  let root_errors :=
    match validate_units vs with
    | Ok _ => []
    | Raise e => [exn_str e]
    end in
  match get_category vs, get_from_unit vs, get_to_unit vs, get_value vs,
        root_errors with
  | Some c, Some f, Some u, Some v, [] =>
      inr {| category := c; from_unit := f; to_unit := u; value := v |}
  | _, _, _, _, _ => inl (field_errors vs ++ root_errors)%list
  end.

End UnitConversionRequest.

Module UnitConversionResponse.

Record t : Type := {
  category : string;
  from_unit : string;
  to_unit : string;
  input_value : Float64.float;
  converted_value : Float64.float
}.

End UnitConversionResponse.

Module CurrencyConversionRequest.

Record t : Type := {
  from_currency : string;
  to_currency : string;
  amount : Float64.float
}.

End CurrencyConversionRequest.

Module CurrencyConversionResponse.

Record t : Type := {
  from_currency : string;
  to_currency : string;
  input_amount : Float64.float;
  converted_amount : Float64.float;
  rate : Float64.float
}.

End CurrencyConversionResponse.

(** ** The web framework around the handlers *)

Module Http.

(** What goes back to the client. *)
Inductive content (A : Type) : Type :=
| Model (a : A)
| Detail (detail : message)
| ValidationErrors (errors : list message)
| InternalServerError.

Arguments Model {A} a.
Arguments Detail {A} detail.
Arguments ValidationErrors {A} errors.
Arguments InternalServerError {A}.

Record response (A : Type) : Type := {
  status_code : Z;
  body : content A
}.

(** The handler registered for [HTTPException]. *)
Definition custom_http_exception_handler {A : Type}
    (status : Z) (detail : message) : response A :=
  {| status_code := status; body := Detail detail |}.

(** Whether a returned body can be written as JSON.  The framework
    renders it with [json.dumps(..., allow_nan=False)], which raises on
    a float that is NaN or an infinity. *)
Class Renderable (A : Type) : Type := renders : A -> bool.

#[global] Instance unit_conversion_renders
  : Renderable UnitConversionResponse.t :=
  fun r =>
    Float64.is_finite (UnitConversionResponse.input_value r)
    && Float64.is_finite (UnitConversionResponse.converted_value r).

#[global] Instance currency_conversion_renders
  : Renderable CurrencyConversionResponse.t :=
  fun r =>
    Float64.is_finite (CurrencyConversionResponse.input_amount r)
    && Float64.is_finite (CurrencyConversionResponse.converted_amount r)
    && Float64.is_finite (CurrencyConversionResponse.rate r).

#[global] Instance strings_render : Renderable (list string) :=
  fun _ => true.

(** A handler's outcome becomes a response: a returned model is rendered
    and sent with 200, an [HTTPException] goes to its handler, and any
    other exception, that of the rendering included, is an internal
    server error. *)
Definition respond {A : Type} `{Renderable A} (r : result A) : response A :=
  match r with
  | Ok a =>
      if renders a then {| status_code := 200; body := Model a |}
      else {| status_code := 500; body := InternalServerError |}
  | Raise (HTTPException status detail) =>
      custom_http_exception_handler status detail
  | Raise _ => {| status_code := 500; body := InternalServerError |}
  end.

(** A body that does not build the request model never reaches the
    handler: FastAPI answers 422 with the list of errors. *)
Definition request_validation_error {A : Type} (errors : list message)
  : response A :=
  {| status_code := 422; body := ValidationErrors errors |}.

End Http.

(** ** REST API endpoints *)

Definition convert_units (request : UnitConversionRequest.t)
  : result UnitConversionResponse.t :=
  conversion_func <-
    getitem CONVERSION_FUNC (UnitConversionRequest.category request) ;;
  result <-
    try_except
      (conversion_func (UnitConversionRequest.value request)
                       (UnitConversionRequest.from_unit request)
                       (UnitConversionRequest.to_unit request))
      (fun e => Raise (HTTPException 400 (exn_str e))) ;;
  converted <- to_float (round_result (Float result)) ;;
  Ok {| UnitConversionResponse.category :=
          UnitConversionRequest.category request;
        UnitConversionResponse.from_unit :=
          UnitConversionRequest.from_unit request;
        UnitConversionResponse.to_unit :=
          UnitConversionRequest.to_unit request;
        UnitConversionResponse.input_value :=
          UnitConversionRequest.value request;
        UnitConversionResponse.converted_value := converted |}.

(** [POST /convert] *)
Definition post_convert (vs : UnitConversionRequest.values)
  : Http.response UnitConversionResponse.t :=
  match UnitConversionRequest.parse vs with
  | inl errors => Http.request_validation_error errors
  | inr request => Http.respond (convert_units request)
  end.

(** [GET /]: health check route for the backend. *)
Definition health_check : dict string := [("message", "Healthy")].

(** [GET /categories]: the comprehension
    [{"key": key, "display": UNIT_CATEGORIES[key]["display"]}] over
    [SUPPORTED_UNIT_CATEGORIES]. *)
Fixpoint categories_of (supported : list string) : result (list (dict string)) :=
  match supported with
  | [] => Ok []
  | key :: rest =>
      entry <- getitem UNIT_CATEGORIES key ;;
      items <- categories_of rest ;;
      Ok ([("key", key); ("display", display entry)] :: items)
  end.

Definition get_categories : result (list (dict string)) :=
  categories_of SUPPORTED_UNIT_CATEGORIES.

(** [GET /units?category=...] *)
Definition get_units (category : string) : result (list string) :=
  if negb (contains UNIT_CATEGORIES category) then
    Raise (HTTPException 400 [Text "Invalid category: "; Fmt (VStr category)])
  else
    entry <- getitem UNIT_CATEGORIES category ;;
    Ok (keys (units entry)).

(** ** Currency conversion integration *)

Module Upstream.

(** An [httpx.Response] as the handlers use it: the status, the message
    [raise_for_status] would raise with, and what [json()] gives (the
    decoded body, or the decoder's exception). *)
Record response : Type := {
  status_code : Z;
  status_message : string;
  json : result object
}.

Definition is_success (r : response) : bool :=
  ((200 <=? status_code r) && (status_code r <=? 299))%Z.

(** [response.raise_for_status()] raises on every status outside 2xx. *)
Definition raise_for_status (r : response) : result unit :=
  if is_success r then Ok tt
  else Raise (HTTPStatusError (status_message r)).

End Upstream.

Definition CURRENCY_API_URL : string := "https://api.exchangerate.host/convert".
Definition CURRENCY_SYMBOLS_URL : string :=
  "https://api.exchangerate.host/symbols".

Section Currency.

(** The builtin [str.upper]. *)
Variable upper : string -> string.

(** [await client.get(url, params=params)] on a fresh
    [httpx.AsyncClient]: the provider's response, or the exception of a
    failed exchange. *)
Variable client_get : string -> dict object -> result Upstream.response.

(** [round_result] applied to a decoded JSON value. *)
Definition round_result_of (o : object) : result number :=
  n <- as_number o ;;
  Ok (round_result n).

Definition convert_currency (req : CurrencyConversionRequest.t)
  : result CurrencyConversionResponse.t :=
  let from_curr := upper (CurrencyConversionRequest.from_currency req) in
  let to_curr := upper (CurrencyConversionRequest.to_currency req) in
  let amount := CurrencyConversionRequest.amount req in
  data <-
    try_except
      (let params := [("from", VStr from_curr);
                      ("to", VStr to_curr);
                      ("amount", VNum (Float amount))] in
       response <- client_get CURRENCY_API_URL params ;;
       _ <- Upstream.raise_for_status response ;;
       Upstream.json response)
      (fun e =>
         Raise (HTTPException 502
                  (Text "Currency API error: " :: exn_str e))) ;;
  success <- obj_get data "success" (VBool true) ;;
  if negb (truthy success) then
    error <- obj_get data "error" (VStr "Unknown error") ;;
    Raise (HTTPException 400
             [Text "Currency conversion failed: "; Fmt error])
  else
    rate <-
      (has_info <- obj_contains data "info" ;;
       if has_info then
         info <- obj_getitem data "info" ;;
         has_rate <- obj_contains info "rate" ;;
         if has_rate then
           info <- obj_getitem data "info" ;;
           obj_getitem info "rate"
         else Ok VNone
       else Ok VNone) ;;
    converted <- obj_get data "result" VNone ;;
    if is_none converted || is_none rate then
      Raise (HTTPException 502
               [Text "Currency API returned incomplete data"])
    else
      converted_amount <- round_result_of converted ;;
      rounded_rate <- round_result_of rate ;;
      converted_amount <- to_float converted_amount ;;
      rounded_rate <- to_float rounded_rate ;;
      Ok {| CurrencyConversionResponse.from_currency := from_curr;
            CurrencyConversionResponse.to_currency := to_curr;
            CurrencyConversionResponse.input_amount := amount;
            CurrencyConversionResponse.converted_amount := converted_amount;
            CurrencyConversionResponse.rate := rounded_rate |}.

Definition get_currency_symbols : result (list string) :=
  response <- client_get CURRENCY_SYMBOLS_URL [] ;;
  _ <- Upstream.raise_for_status response ;;
  data <- Upstream.json response ;;
  symbols <- obj_get data "symbols" (VDict []) ;;
  names <- obj_keys symbols ;;
  Ok (sorted names).

(** [POST /currency/convert] *)
Definition post_currency_convert (req : CurrencyConversionRequest.t)
  : Http.response CurrencyConversionResponse.t :=
  Http.respond (convert_currency req).

(** [GET /currency/symbols] *)
Definition get_currency_symbols_endpoint : Http.response (list string) :=
  Http.respond get_currency_symbols.

End Currency.

(** ** Vocabulary of the specification *)

(** The linear categories and their conversion functions. *)
Definition LINEAR_CONVERSIONS
  : dict (Float64.float -> string -> string -> result Float64.float) := [
  ("length", convert_length);
  ("weight", convert_weight);
  ("speed", convert_speed)
].

(** A table entry a value can be multiplied and divided by. *)
Definition usable_scale (kv : string * option Float64.float) : bool :=
  match snd kv with
  | Some s => negb (Float64.is_zero s)
  | None => false
  end.

Definition TEMPERATURE_UNITS : list string :=
  ["celsius"; "fahrenheit"; "kelvin"].

(** The two steps of the temperature conversion as the specification
    words them: normalize to Celsius, then project to the target. *)
Definition normalize_to_celsius (unit : string) (value : Float64.float)
  : Float64.float :=
  if unit =? "celsius" then value
  else if unit =? "fahrenheit" then
    Float64.div (Float64.mul (Float64.sub value (Float64.of_int 32))
                             (Float64.of_int 5))
                (Float64.of_int 9)
  else Float64.sub value (lit 27315 2).

Definition project_from_celsius (unit : string) (celsius : Float64.float)
  : Float64.float :=
  if unit =? "celsius" then celsius
  else if unit =? "fahrenheit" then
    Float64.add (Float64.div (Float64.mul celsius (Float64.of_int 9))
                             (Float64.of_int 5))
                (Float64.of_int 32)
  else Float64.add celsius (lit 27315 2).

(** A number Python can hold: any int, and the floats in canonical
    binary64 form. *)
Definition num_valid (x : number) : bool :=
  match x with
  | Int _ => true
  | Float f => Float64.valid f
  end.

Definition num_is_nan (x : number) : bool :=
  match x with
  | Int _ => false
  | Float f => Float64.is_nan f
  end.

(** The float [1.0], the scale of every base unit. *)
Definition one : Float64.float := S754_finite false 4503599627370496 (-52).

(** A mantissa with nothing shifted out of it. *)
Definition exact (m : Z) : shr_record :=
  {| shr_m := m; shr_r := false; shr_s := false |}.

(** The payload's exchange rate, where [info] is absent or an object. *)
Definition payload_rate (d : dict object) : option object :=
  match get d "info" with
  | Some (VDict info) => get info "rate"
  | _ => None
  end.

(** A field that is missing or [null]. *)
Definition lacking (o : option object) : bool :=
  match o with
  | None | Some VNone => true
  | Some _ => false
  end.


(** The query [convert_currency] sends to the provider. *)
Definition currency_params (upper : string -> string)
    (req : CurrencyConversionRequest.t) : dict object :=
  [("from", VStr (upper (CurrencyConversionRequest.from_currency req)));
   ("to", VStr (upper (CurrencyConversionRequest.to_currency req)));
   ("amount", VNum (Float (CurrencyConversionRequest.amount req)))].


(** A table entry that is a positive finite float. *)
Definition positive_scale (kv : string * option Float64.float) : bool :=
  match snd kv with
  | Some (S754_finite false _ _) => true
  | _ => false
  end.

(** Zeros, infinities and NaN. *)
Definition is_special (x : Float64.float) : bool :=
  match x with
  | S754_finite _ _ _ => false
  | _ => true
  end.


(** The model [convert_units] returns: the request's fields as they
    are, and the converted value. *)
Definition echo_response (request : UnitConversionRequest.t)
    (converted : Float64.float) : UnitConversionResponse.t :=
  {| UnitConversionResponse.category :=
       UnitConversionRequest.category request;
     UnitConversionResponse.from_unit :=
       UnitConversionRequest.from_unit request;
     UnitConversionResponse.to_unit :=
       UnitConversionRequest.to_unit request;
     UnitConversionResponse.input_value :=
       UnitConversionRequest.value request;
     UnitConversionResponse.converted_value := converted |}.

(** The largest finite float, 1.7976931348623157e308. *)
Definition max_float : Float64.float :=
  S754_finite false 9007199254740991 971.


(** * Properties *)

Local Open Scope Z_scope.
Unset Implicit Arguments.

(** ** Comparisons *)

Lemma SFcompare_antisym (x y : spec_float) :
  SFcompare y x = option_map CompOpp (SFcompare x y).
Proof.
  destruct x as [sx|sx| |sx mx ex], y as [sy|sy| |sy my ey]; simpl;
    try reflexivity;
    try (destruct sx; reflexivity); try (destruct sy; reflexivity);
    try (destruct sx, sy; reflexivity).
  assert (Hm : Pos.compare_cont Eq my mx = CompOpp (Pos.compare_cont Eq mx my))
    by (now rewrite Pos.compare_cont_antisym).
  destruct sx, sy; simpl; try reflexivity; f_equal;
    rewrite (Z.compare_antisym ey ex), Hm;
    destruct (ey ?= ex); simpl; reflexivity.
Qed.

Lemma num_compare_antisym (x y : number) :
  num_compare y x = option_map CompOpp (num_compare x y).
Proof.
  destruct x as [a|a], y as [b|b]; simpl.
  - now rewrite (Z.compare_antisym a b).
  - reflexivity.
  - destruct (Float64.compare_int b a) as [c|]; simpl; [|reflexivity].
    now rewrite CompOpp_involutive.
  - apply SFcompare_antisym.
Qed.

Lemma num_le_not_lt (x y : number) :
  num_le x y = true -> num_lt y x = false.
Proof.
  unfold num_le, num_lt. rewrite (num_compare_antisym x y).
  destruct (num_compare x y) as [[]|]; simpl; congruence.
Qed.

(** ** Negation commutes with rounding *)

Lemma binary_round_aux_opp (s : bool) (m e : Z) (l : location) :
  binary_round_aux Float64.prec Float64.emax (negb s) m e l
  = SFopp (binary_round_aux Float64.prec Float64.emax s m e l).
Proof.
  unfold binary_round_aux.
  destruct (shr_fexp Float64.prec Float64.emax m e l) as [mrs e'].
  destruct (shr_fexp Float64.prec Float64.emax
              (round_nearest_even (shr_m mrs) (loc_of_shr_record mrs)) e'
              loc_Exact) as [mrs' e''].
  destruct (shr_m mrs'); try reflexivity.
  destruct (e'' <=? Float64.emax - Float64.prec); reflexivity.
Qed.

Lemma div_opp_l (s : bool) (m : positive) (e : Z) (d : positive) (e' : Z) :
  Float64.div (S754_finite (negb s) m e) (S754_finite false d e')
  = SFopp (Float64.div (S754_finite s m e) (S754_finite false d e')).
Proof.
  unfold Float64.div, SFdiv.
  destruct (SFdiv_core_binary Float64.prec Float64.emax (Z.pos m) e (Z.pos d) e')
    as [[mz ez] lz].
  rewrite !xorb_false_r. apply binary_round_aux_opp.
Qed.

Lemma round_opp (x : Float64.float) (n : nat) :
  Float64.round (SFopp x) n = SFopp (Float64.round x n).
Proof.
  destruct x as [s|s| |s m e]; try reflexivity.
  unfold Float64.round, SFopp at 1.
  match goal with |- context [match ?q with Z0 => _ | Zpos _ => _ | Zneg _ => _ end] =>
    destruct q end; try reflexivity.
  apply div_opp_l.
Qed.

Lemma shr_1_nonneg (mrs : shr_record) :
  0 <= shr_m mrs -> 0 <= shr_m (shr_1 mrs).
Proof.
  destruct mrs as [m r s]; simpl.
  destruct m as [|[p|p|]|[p|p|]]; simpl; lia.
Qed.

Lemma iter_shr_1_nonneg (p : positive) (mrs : shr_record) :
  0 <= shr_m mrs -> 0 <= shr_m (iter_pos shr_1 p mrs).
Proof.
  revert mrs; induction p as [p IH|p IH|]; intros mrs H; simpl.
  - apply IH, IH, shr_1_nonneg, H.
  - apply IH, IH, H.
  - apply shr_1_nonneg, H.
Qed.

Lemma shr_fexp_nonneg (m e : Z) (l : location) :
  0 <= m ->
  0 <= shr_m (fst (shr_fexp Float64.prec Float64.emax m e l)).
Proof.
  intros H. unfold shr_fexp, shr.
  assert (H0 : 0 <= shr_m (shr_record_of_loc m l))
    by (destruct l as [|[]]; exact H).
  destruct (fexp Float64.prec Float64.emax (Zdigits2 m + e) - e);
    simpl; auto using iter_shr_1_nonneg.
Qed.

Lemma round_nearest_even_nonneg (m : Z) (l : location) :
  0 <= m -> 0 <= round_nearest_even m l.
Proof.
  intros H. destruct l as [|[]]; simpl; try lia.
  destruct (Z.even m); lia.
Qed.

Lemma binary_round_aux_not_nan (s : bool) (m e : Z) (l : location) :
  0 <= m ->
  Float64.is_nan (binary_round_aux Float64.prec Float64.emax s m e l) = false.
Proof.
  intros H. unfold binary_round_aux.
  pose proof (shr_fexp_nonneg m e l H) as H1.
  destruct (shr_fexp Float64.prec Float64.emax m e l) as [mrs e']; simpl in H1.
  pose proof (shr_fexp_nonneg _ e' loc_Exact
                (round_nearest_even_nonneg _ (loc_of_shr_record mrs) H1))
    as H2.
  destruct (shr_fexp Float64.prec Float64.emax
              (round_nearest_even (shr_m mrs) (loc_of_shr_record mrs)) e'
              loc_Exact) as [mrs' e'']; simpl in H2.
  destruct (shr_m mrs'); try reflexivity; [|lia].
  destruct (e'' <=? Float64.emax - Float64.prec); reflexivity.
Qed.

Lemma div_finite_not_nan (s : bool) (m : positive) (e : Z) (d : positive) (e' : Z) :
  Float64.is_nan
    (Float64.div (S754_finite s m e) (S754_finite false d e')) = false.
Proof.
  unfold Float64.div, SFdiv, SFdiv_core_binary.
  set (sh := e - e' - _).
  set (m' := match sh with Z0 => _ | Zpos _ => _ | Zneg _ => _ end).
  assert (Hm' : 0 <= m').
  { subst m'. destruct sh; try lia. apply Z.shiftl_nonneg. lia. }
  pose proof (Z.div_pos m' (Zpos d) Hm' eq_refl) as Hq.
  unfold Z.div in Hq.
  destruct (Z.div_eucl m' (Z.pos d)) as [q r].
  apply binary_round_aux_not_nan, Hq.
Qed.

Lemma round_not_nan (x : Float64.float) (n : nat) :
  Float64.is_nan x = false -> Float64.is_nan (Float64.round x n) = false.
Proof.
  destruct x as [s|s| |s m e]; simpl; try congruence. intros _.
  match goal with |- context [match ?q with Z0 => _ | Zpos _ => _ | Zneg _ => _ end] =>
    destruct q end; try reflexivity.
  apply div_finite_not_nan.
Qed.

(** ** Multiplying and dividing by [1.0] is exact *)

Lemma iter_pos_nat (A : Type) (f : A -> A) (p : positive) (x : A) :
  iter_pos f p x = Nat.iter (Pos.to_nat p) f x.
Proof.
  revert x; induction p as [p IH|p IH|]; intros x; cbn [iter_pos].
  - rewrite !IH, Pos2Nat.inj_xI, <- Nat.iter_succ_r.
    replace (S (2 * Pos.to_nat p))%nat
      with (Pos.to_nat p + S (Pos.to_nat p))%nat by lia.
    now rewrite Nat.iter_add.
  - rewrite !IH, Pos2Nat.inj_xO.
    replace (2 * Pos.to_nat p)%nat with (Pos.to_nat p + Pos.to_nat p)%nat by lia.
    now rewrite Nat.iter_add.
  - reflexivity.
Qed.

Lemma shr_1_double (z : Z) : 0 < z -> shr_1 (exact (2 * z)) = exact z.
Proof. destruct z; try lia. reflexivity. Qed.

Lemma iter_shr_1_pow2 (n : nat) (z : Z) :
  0 < z -> Nat.iter n shr_1 (exact (z * 2 ^ Z.of_nat n)) = exact z.
Proof.
  intros Hz. induction n as [|n IH].
  - simpl. now rewrite Z.mul_1_r.
  - rewrite Nat.iter_succ_r, Nat2Z.inj_succ, Z.pow_succ_r by lia.
    replace (z * (2 * 2 ^ Z.of_nat n)) with (2 * (z * 2 ^ Z.of_nat n)) by ring.
    rewrite shr_1_double; [exact IH|].
    apply Z.mul_pos_pos; [exact Hz | apply Z.pow_pos_nonneg; lia].
Qed.

Lemma Zdigits2_double (z : Z) : 0 < z -> Zdigits2 (2 * z) = Zdigits2 z + 1.
Proof. destruct z; try lia. intros _. simpl. lia. Qed.

Lemma Zdigits2_pow2 (n : nat) (z : Z) :
  0 < z -> Zdigits2 (z * 2 ^ Z.of_nat n) = Zdigits2 z + Z.of_nat n.
Proof.
  intros Hz. induction n as [|n IH].
  - simpl. rewrite Z.mul_1_r. lia.
  - rewrite Nat2Z.inj_succ, Z.pow_succ_r by lia.
    replace (z * (2 * 2 ^ Z.of_nat n)) with (2 * (z * 2 ^ Z.of_nat n)) by ring.
    rewrite Zdigits2_double, IH; [lia|].
    apply Z.mul_pos_pos; [exact Hz | apply Z.pow_pos_nonneg; lia].
Qed.

Lemma binary_round_aux_shifted (s : bool) (m : positive) (e : Z) (n : nat) :
  bounded Float64.prec Float64.emax m e = true ->
  binary_round_aux Float64.prec Float64.emax s
    (Zpos m * 2 ^ Z.of_nat n) (e - Z.of_nat n) loc_Exact
  = S754_finite s m e.
Proof.
  unfold bounded, canonical_mantissa. intros Hb.
  apply andb_prop in Hb. destruct Hb as [Hc Hle].
  apply Z.eqb_eq in Hc.
  assert (Hc' : fexp Float64.prec Float64.emax (Zdigits2 (Z.pos m) + e) = e)
    by exact Hc.
  unfold binary_round_aux.
  assert (H1 : shr_fexp Float64.prec Float64.emax (Z.pos m * 2 ^ Z.of_nat n)
                 (e - Z.of_nat n) loc_Exact = (exact (Zpos m), e)).
  { unfold shr_fexp. rewrite Zdigits2_pow2 by lia.
    replace (Zdigits2 (Z.pos m) + Z.of_nat n + (e - Z.of_nat n))
      with (Zdigits2 (Z.pos m) + e) by ring.
    rewrite Hc'.
    replace (e - (e - Z.of_nat n)) with (Z.of_nat n) by ring.
    unfold shr. destruct n as [|n].
    - change (Z.of_nat 0) with 0.
      now rewrite Z.pow_0_r, Z.mul_1_r, Z.sub_0_r.
    - change (shr_record_of_loc ?z loc_Exact) with (exact z).
      remember (exact (Z.pos m * 2 ^ Z.of_nat (S n))) as r eqn:Hr.
      cbn [Z.of_nat].
      rewrite iter_pos_nat, SuccNat2Pos.id_succ, Zpos_P_of_succ_nat.
      subst r. rewrite iter_shr_1_pow2 by lia.
      f_equal. lia. }
  rewrite H1. simpl shr_m. simpl loc_of_shr_record. simpl round_nearest_even.
  assert (H2 : shr_fexp Float64.prec Float64.emax (Z.pos m) e loc_Exact
               = (exact (Zpos m), e)).
  { unfold shr_fexp. rewrite Hc', Z.sub_diag. reflexivity. }
  rewrite H2. simpl shr_m. now rewrite Hle.
Qed.

Lemma fexp_binary64 (x : Z) :
  fexp Float64.prec Float64.emax x = Z.max (x - 53) (-1074).
Proof. reflexivity. Qed.

Lemma mul_one (v : Float64.float) :
  Float64.valid v = true -> Float64.mul v one = v.
Proof.
  destruct v as [s|s| |s m e]; intros Hv;
    try (destruct s; reflexivity); try reflexivity.
  unfold Float64.mul, one, SFmul.
  rewrite xorb_false_r, Pos2Z.inj_mul.
  change (Z.pos 4503599627370496) with (2 ^ Z.of_nat 52).
  change (e + -52) with (e - Z.of_nat 52).
  apply binary_round_aux_shifted, Hv.
Qed.

Lemma div_one (v : Float64.float) :
  Float64.valid v = true -> Float64.div v one = v.
Proof.
  destruct v as [s|s| |s m e]; intros Hv;
    try (destruct s; reflexivity); try reflexivity.
  unfold Float64.div, one, SFdiv, SFdiv_core_binary.
  rewrite xorb_false_r.
  assert (Hc : fexp Float64.prec Float64.emax (Zdigits2 (Z.pos m) + e) = e).
  { unfold Float64.valid, valid_binary, bounded, canonical_mantissa in Hv.
    apply andb_prop in Hv. destruct Hv as [Hv _].
    apply Z.eqb_eq in Hv. exact Hv. }
  change (Zdigits2 (Z.pos 4503599627370496)) with 53.
  set (e' := Z.min _ _).
  assert (He' : exists j : nat, (j <= 1)%nat /\ e' = e - Z.of_nat j).
  { subst e'. rewrite !fexp_binary64 in *.
    change IntDef.Z.add with Z.add; change IntDef.Z.sub with Z.sub;
      change IntDef.Z.min with Z.min.
    destruct (Z_lt_le_dec (Zdigits2 (Z.pos m) + e - 54) (-1074)).
    - exists 0%nat. split; [lia|]. simpl Z.of_nat. lia.
    - exists 1%nat. split; [lia|]. simpl Z.of_nat. lia. }
  destruct He' as [j [Hj He']].
  replace (e - -52 - e') with (Z.of_nat (52 + j)) by lia.
  assert (Hsh : match Z.of_nat (52 + j) with
                | 0 => Z.pos m
                | Z.pos _ => Z.shiftl (Z.pos m) (Z.of_nat (52 + j))
                | Z.neg _ => 0
                end = (Z.pos m * 2 ^ Z.of_nat j) * 2 ^ 52).
  { rewrite Nat2Z.inj_add. change (Z.of_nat 52) with 52.
    destruct (52 + Z.of_nat j) eqn:E; try lia.
    rewrite <- E, Z.shiftl_mul_pow2, Z.pow_add_r by lia. ring. }
  rewrite Hsh.
  pose proof (Z.div_mul (Z.pos m * 2 ^ Z.of_nat j) (2 ^ 52)) as Hq.
  pose proof (Z.mod_mul (Z.pos m * 2 ^ Z.of_nat j) (2 ^ 52)) as Hr.
  unfold Z.div in Hq. unfold Z.modulo in Hr.
  change (Z.pos 4503599627370496) with (2 ^ 52).
  destruct (Z.div_eucl (Z.pos m * 2 ^ Z.of_nat j * 2 ^ 52) (2 ^ 52)) as [q r].
  rewrite Hq, Hr by (apply Z.pow_nonzero; lia).
  change (new_location (2 ^ 52) 0) with loc_Exact.
  rewrite He'. apply binary_round_aux_shifted, Hv.
Qed.

(** ** Dictionaries *)

Lemma get_In (V : Type) (d : dict V) (k : string) (v : V) :
  get d k = Some v -> In (k, v) d.
Proof.
  induction d as [|[k' v'] d IH]; simpl; [discriminate|].
  destruct (String.eqb_spec k k') as [->|_].
  - intros [= ->]. now left.
  - intros H. right. now apply IH.
Qed.

Lemma contains_get (V : Type) (d : dict V) (k : string) :
  contains d k = true -> exists v, get d k = Some v.
Proof.
  unfold contains. destruct (get d k) as [v|]; [eauto | discriminate].
Qed.

(** ** The linear categories *)

Lemma linear_tables_usable key f entry :
  In (key, f) LINEAR_CONVERSIONS ->
  get UNIT_CATEGORIES key = Some entry ->
  f = convert_through_base key
  /\ forallb usable_scale (units entry) = true.
Proof.
  intros [H|[H|[H|[]]]] Hg; injection H as <- <-;
    vm_compute in Hg; injection Hg as <-;
    (split; [reflexivity | vm_compute; reflexivity]).
Qed.

Lemma usable_scale_get entry u :
  forallb usable_scale (units entry) = true ->
  contains (units entry) u = true ->
  exists s, get (units entry) u = Some (Some s) /\ Float64.is_zero s = false.
Proof.
  intros Hall Hin. apply contains_get in Hin. destruct Hin as [o Ho].
  rewrite forallb_forall in Hall.
  specialize (Hall _ (get_In _ _ _ _ Ho)). unfold usable_scale in Hall.
  simpl in Hall. destruct o as [s|]; [|discriminate].
  exists s. split; [exact Ho|]. now apply negb_true_iff.
Qed.

Lemma through_base_formula key entry from_unit to_unit value :
  get UNIT_CATEGORIES key = Some entry ->
  forallb usable_scale (units entry) = true ->
  contains (units entry) from_unit = true ->
  contains (units entry) to_unit = true ->
  exists s_from s_to,
    get (units entry) from_unit = Some (Some s_from) /\
    get (units entry) to_unit = Some (Some s_to) /\
    convert_through_base key value from_unit to_unit
    = Ok (Float64.div (Float64.mul value s_from) s_to).
Proof.
  intros Hg Hall Hfrom Hto.
  destruct (usable_scale_get _ _ Hall Hfrom) as [a [Ha _]].
  destruct (usable_scale_get _ _ Hall Hto) as [b [Hb Hnz]].
  exists a, b. split; [exact Ha|]. split; [exact Hb|].
  unfold convert_through_base, getitem. rewrite Hg. cbn [bind].
  rewrite Ha. cbn [bind Py.mul]. rewrite Hb. cbn [bind truediv].
  now rewrite Hnz.
Qed.

(** C1: in every linear category (length, weight, speed), for every pair
    of units present in the category's table and every value, the
    conversion function returns exactly
    [value * scale[from_unit] / scale[to_unit]]: one multiplication into
    the base unit, one division out of it. *)
Theorem linear_conversion_formula key f entry from_unit to_unit value :
  In (key, f) LINEAR_CONVERSIONS ->
  get UNIT_CATEGORIES key = Some entry ->
  contains (units entry) from_unit = true ->
  contains (units entry) to_unit = true ->
  exists s_from s_to,
    get (units entry) from_unit = Some (Some s_from) /\
    get (units entry) to_unit = Some (Some s_to) /\
    f value from_unit to_unit
    = Ok (Float64.div (Float64.mul value s_from) s_to).
Proof.
  intros Hin Hg Hfrom Hto.
  destruct (linear_tables_usable key f entry Hin Hg) as [-> Hall].
  exact (through_base_formula key entry from_unit to_unit value
           Hg Hall Hfrom Hto).
Qed.

Lemma linear_conversion_formula_witness :
  exists entry s_from s_to,
    get UNIT_CATEGORIES "length" = Some entry /\
    get (units entry) "kilometers" = Some (Some s_from) /\
    get (units entry) "meters" = Some (Some s_to) /\
    convert_length (Float64.of_int 1) "kilometers" "meters"
    = Ok (Float64.div (Float64.mul (Float64.of_int 1) s_from) s_to).
Proof.
  eexists.
  assert (Hg : get UNIT_CATEGORIES "length" = Some ?[entry]) by reflexivity.
  destruct (linear_conversion_formula "length" convert_length _
              "kilometers" "meters" (Float64.of_int 1)
              (or_introl eq_refl) Hg eq_refl eq_refl)
    as [a [b [Ha [Hb H]]]].
  exists a, b. repeat split; assumption.
Defined.

(** The same formula, as later proofs use it. *)
Lemma linear_conversion_returns key f entry from_unit to_unit value :
  In (key, f) LINEAR_CONVERSIONS ->
  get UNIT_CATEGORIES key = Some entry ->
  contains (units entry) from_unit = true ->
  contains (units entry) to_unit = true ->
  exists s_from s_to,
    get (units entry) from_unit = Some (Some s_from) /\
    get (units entry) to_unit = Some (Some s_to) /\
    f value from_unit to_unit
    = Ok (Float64.div (Float64.mul value s_from) s_to).
Proof.
  intros Hin Hg Hfrom Hto.
  destruct (linear_tables_usable _ _ _ Hin Hg) as [-> Hall].
  now apply through_base_formula.
Qed.

(** ** Temperature *)

Lemma in_temperature_units (u : string) :
  In u TEMPERATURE_UNITS ->
  u = "celsius" \/ u = "fahrenheit" \/ u = "kelvin".
Proof. simpl. intuition auto. Qed.

Lemma convert_temperature_same (value : Float64.float) (u : string) :
  convert_temperature value u u = Ok value.
Proof. unfold convert_temperature. now rewrite String.eqb_refl. Qed.

Lemma convert_temperature_steps value from_unit to_unit :
  In from_unit TEMPERATURE_UNITS ->
  In to_unit TEMPERATURE_UNITS ->
  from_unit <> to_unit ->
  convert_temperature value from_unit to_unit
  = Ok (project_from_celsius to_unit (normalize_to_celsius from_unit value)).
Proof.
  intros Hf Ht Hne.
  apply in_temperature_units in Hf. apply in_temperature_units in Ht.
  destruct Hf as [-> | [-> | ->]], Ht as [-> | [-> | ->]];
    try (exfalso; apply Hne; reflexivity); reflexivity.
Qed.

(** C2: between two distinct units among celsius, fahrenheit and kelvin,
    [convert_temperature] normalizes the value to Celsius and projects
    Celsius to the target, with the formulas of the specification; and
    0 C is 32 F, 212 F is 100 C, 0 C is 273.15 K under Python's [==]. *)
Theorem convert_temperature_through_celsius :
  (forall value from_unit to_unit,
      In from_unit TEMPERATURE_UNITS ->
      In to_unit TEMPERATURE_UNITS ->
      from_unit <> to_unit ->
      convert_temperature value from_unit to_unit
      = Ok (project_from_celsius to_unit
              (normalize_to_celsius from_unit value)))
  /\ (exists r,
         convert_temperature (Float64.of_int 0) "celsius" "fahrenheit" = Ok r
         /\ num_eq (Float r) (Int 32) = true)
  /\ (exists r,
         convert_temperature (Float64.of_int 212) "fahrenheit" "celsius" = Ok r
         /\ num_eq (Float r) (Int 100) = true)
  /\ (exists r,
         convert_temperature (Float64.of_int 0) "celsius" "kelvin" = Ok r
         /\ num_eq (Float r) (Float (lit 27315 2)) = true).
Proof.
  split; [exact convert_temperature_steps|].
  repeat split; eexists; (split; [vm_compute; reflexivity | reflexivity]).
Qed.

Lemma convert_temperature_through_celsius_witness :
  convert_temperature (Float64.of_int 212) "fahrenheit" "kelvin"
  = Ok (project_from_celsius "kelvin"
          (normalize_to_celsius "fahrenheit" (Float64.of_int 212))).
Proof.
  apply (proj1 convert_temperature_through_celsius);
    [simpl; auto | simpl; auto | discriminate].
Defined.

(** C6: the short-circuit on equal unit names comes before the checks of
    the names, so an unknown name given twice is converted silently. *)
Theorem convert_temperature_unknown_unit_twice :
  ~ In "rankine" TEMPERATURE_UNITS
  /\ convert_temperature (Float64.of_int 1) "rankine" "rankine"
     = Ok (Float64.of_int 1).
Proof.
  split; [|reflexivity].
  simpl. intuition discriminate.
Qed.

Ltac known_unit H := exfalso; apply H; simpl; auto.

Ltac unknown_target to_unit H :=
  exists to_unit; split; [now right|]; split; [exact H|]; cbn [bind];
  destruct (String.eqb_spec to_unit "celsius") as [->|_];
    [known_unit H|];
  destruct (String.eqb_spec to_unit "fahrenheit") as [->|_];
    [known_unit H|];
  destruct (String.eqb_spec to_unit "kelvin") as [->|_];
    [known_unit H|];
  reflexivity.

(** With two different names of which one is unknown, the first unknown
    name met is reported in a [ValueError]. *)
Lemma convert_temperature_unknown_unit value from_unit to_unit :
  from_unit <> to_unit ->
  ~ In from_unit TEMPERATURE_UNITS \/ ~ In to_unit TEMPERATURE_UNITS ->
  exists bad,
    (bad = from_unit \/ bad = to_unit) /\ ~ In bad TEMPERATURE_UNITS /\
    convert_temperature value from_unit to_unit
    = Raise (ValueError [Text "Unsupported temperature unit: ";
                         Fmt (VStr bad)]).
Proof.
  intros Hne Hbad. unfold convert_temperature.
  destruct (String.eqb_spec from_unit to_unit) as [E|_]; [contradiction|].
  destruct (String.eqb_spec from_unit "celsius") as [->|Hc].
  { destruct Hbad as [H|H]; [known_unit H|]. unknown_target to_unit H. }
  destruct (String.eqb_spec from_unit "fahrenheit") as [->|Hf].
  { destruct Hbad as [H|H]; [known_unit H|].
    change (truediv _ (Some (Float64.of_int 9)))
      with (Ok (Float64.div
                  (Float64.mul (Float64.sub value (Float64.of_int 32))
                               (Float64.of_int 5)) (Float64.of_int 9))).
    unknown_target to_unit H. }
  destruct (String.eqb_spec from_unit "kelvin") as [->|Hk].
  { destruct Hbad as [H|H]; [known_unit H|]. unknown_target to_unit H. }
  exists from_unit. split; [now left|]. split; [|reflexivity].
  simpl. intuition congruence.
Qed.

(** ** Converting a unit to itself *)

(** Three inches converted to inches are not three inches: the product
    [3.0 * 0.0254] is rounded, and the division does not undo it. *)
Lemma inches_to_inches_not_identity :
  (exists entry,
      get UNIT_CATEGORIES "length" = Some entry
      /\ contains (units entry) "inches" = true)
  /\ convert_length (Float64.of_int 3) "inches" "inches"
     = Ok (S754_finite false 6755399441055743 (-51))
  /\ Float64.of_int 3 = S754_finite false 6755399441055744 (-51)
  /\ num_eq (Float (S754_finite false 6755399441055743 (-51)))
            (Float (Float64.of_int 3)) = false.
Proof.
  split; [eexists; split; reflexivity|].
  repeat split; vm_compute; reflexivity.
Qed.

(** C8, amended: a temperature unit converted to itself returns the value
    unchanged.  In a linear category the conversion of a unit to itself
    still multiplies and divides by the unit's scale; with the base unit,
    whose scale is 1.0, that returns every float unchanged. *)
Theorem same_unit_conversion :
  (forall value u,
      In u TEMPERATURE_UNITS -> convert_temperature value u u = Ok value)
  /\ (forall key f entry u value,
         In (key, f) LINEAR_CONVERSIONS ->
         get UNIT_CATEGORIES key = Some entry ->
         contains (units entry) u = true ->
         exists s,
           get (units entry) u = Some (Some s) /\
           f value u u = Ok (Float64.div (Float64.mul value s) s))
  /\ (forall key f entry u value,
         In (key, f) LINEAR_CONVERSIONS ->
         get UNIT_CATEGORIES key = Some entry ->
         get (units entry) u = Some (Some one) ->
         Float64.valid value = true ->
         f value u u = Ok value).
Proof.
  split; [intros value u _; apply convert_temperature_same|].
  split.
  - intros key f entry u value Hin Hg Hu.
    destruct (linear_conversion_returns key f entry u u value Hin Hg Hu Hu)
      as [a [b [Ha [Hb H]]]].
    exists a. split; [exact Ha|].
    rewrite Ha in Hb. injection Hb as <-. exact H.
  - intros key f entry u value Hin Hg Hu Hv.
    assert (Hc : contains (units entry) u = true)
      by (unfold contains; now rewrite Hu).
    destruct (linear_conversion_returns key f entry u u value Hin Hg Hc Hc)
      as [a [b [Ha [Hb H]]]].
    rewrite Hu in Ha, Hb. injection Ha as <-. injection Hb as <-.
    now rewrite H, (mul_one value Hv), (div_one value Hv).
Qed.

Lemma same_unit_conversion_witness :
  convert_temperature (Float64.of_int 20) "kelvin" "kelvin"
  = Ok (Float64.of_int 20)
  /\ convert_weight (lit 25 1) "kilograms" "kilograms" = Ok (lit 25 1).
Proof.
  split.
  - apply (proj1 same_unit_conversion). simpl. auto.
  - assert (Hg : get UNIT_CATEGORIES "weight" = Some ?[entry])
      by reflexivity.
    apply (proj2 (proj2 same_unit_conversion) "weight" convert_weight _
             "kilograms" _ (or_intror (or_introl eq_refl)) Hg);
      reflexivity.
Defined.

(** ** The thresholds of the rounding policy *)

Lemma compare_int_mono (t' t : Z) (f : Float64.float) :
  t' <= t ->
  match Float64.compare_int t f with Some (Lt | Eq) => true | _ => false end
  = true ->
  Float64.compare_int t' f <> Some Gt.
Proof.
  intros Hle. destruct f as [s|s| |s m e]; cbn -[Z.pow Z.mul Z.compare].
  - destruct (Z.compare_spec t 0), (Z.compare_spec t' 0);
      try discriminate; intros _ [=]; lia.
  - destruct s; [discriminate | intros _ [=]].
  - discriminate.
  - set (v := if s then Z.neg m else Z.pos m).
    destruct e as [|p|p].
    + destruct (Z.compare_spec t (v * 2 ^ 0)),
               (Z.compare_spec t' (v * 2 ^ 0));
        try discriminate; intros _ [=]; lia.
    + destruct (Z.compare_spec t (v * 2 ^ Z.pos p)),
               (Z.compare_spec t' (v * 2 ^ Z.pos p));
        try discriminate; intros _ [=]; lia.
    + assert (Hp : 0 < 2 ^ Z.pos p) by (apply Z.pow_pos_nonneg; lia).
      assert (Hm : t' * 2 ^ Z.pos p <= t * 2 ^ Z.pos p)
        by (apply Z.mul_le_mono_nonneg_r; lia).
      destruct (Z.compare_spec (t * 2 ^ Z.pos p) v),
               (Z.compare_spec (t' * 2 ^ Z.pos p) v);
        try discriminate; intros _ [=]; lia.
Qed.

(** At or above an integer threshold is not below a smaller one. *)
Lemma int_threshold_mono (t' t : Z) (a : number) :
  t' <= t -> num_le (Int t) a = true -> num_lt a (Int t') = false.
Proof.
  intros Hle. destruct a as [z|f]; unfold num_le, num_lt; simpl.
  - destruct (Z.compare_spec t z), (Z.compare_spec z t');
      try reflexivity; try discriminate; lia.
  - intros H. pose proof (compare_int_mono t' t f Hle H) as Hn.
    destruct (Float64.compare_int t' f) as [[]|]; simpl;
      try reflexivity. congruence.
Qed.

Lemma digits2_pos_bound (m : positive) : Z.pos m < 2 ^ Z.pos (digits2_pos m).
Proof.
  induction m as [m IH|m IH|]; simpl digits2_pos.
  - rewrite Pos2Z.inj_succ, Z.pow_succ_r by lia. lia.
  - rewrite Pos2Z.inj_succ, Z.pow_succ_r by lia. lia.
  - reflexivity.
Qed.

(** A canonical float that is at least 1 has an exponent above that of
    [1e-6], and compares accordingly. *)
Lemma above_one_not_tiny (t : Z) (a : number) :
  1 <= t -> num_valid a = true -> num_le (Int t) a = true ->
  num_lt a (Float (lit 1 6)) = false.
Proof.
  intros Ht Hv.
  change (lit 1 6) with (S754_finite false 4722366482869645 (-72)).
  destruct a as [z|f]; unfold num_le, num_lt; cbn -[Z.pow Z.mul Z.compare].
  - destruct (Z.compare_spec t z); try discriminate; intros _;
      destruct (Z.compare_spec (z * 2 ^ 72) 4722366482869645);
      try reflexivity; lia.
  - destruct f as [s|s| |s m e];
      cbv beta iota zeta delta [SFcompare Float64.compare_int].
    + destruct (Z.compare_spec t 0); try discriminate; lia.
    + destruct s; [discriminate | reflexivity].
    + discriminate.
    + simpl in Hv. unfold Float64.valid, valid_binary, bounded in Hv.
      apply andb_prop in Hv. destruct Hv as [Hc _].
      unfold canonical_mantissa in Hc. apply Z.eqb_eq in Hc.
      rewrite fexp_binary64 in Hc.
      pose proof (digits2_pos_bound m) as Hd.
      destruct s; cbv beta iota.
      * destruct e as [|p|p].
        -- destruct (Z.compare_spec t (Z.neg m * 2 ^ 0));
             try discriminate; lia.
        -- assert (Z.neg m * 2 ^ Z.pos p < 0)
             by (apply Z.mul_neg_pos; [|apply Z.pow_pos_nonneg]; lia).
           destruct (Z.compare_spec t (Z.neg m * 2 ^ Z.pos p));
             try discriminate; lia.
        -- assert (0 < t * 2 ^ Z.pos p)
             by (apply Z.mul_pos_pos; [|apply Z.pow_pos_nonneg]; lia).
           destruct (Z.compare_spec (t * 2 ^ Z.pos p) (Z.neg m));
             try discriminate; lia.
      * intros H.
        assert (He : -72 < e).
        { destruct e as [|p|p]; try lia.
          assert (Hp : 0 < 2 ^ Z.pos p) by (apply Z.pow_pos_nonneg; lia).
          assert (Hm : 1 * 2 ^ Z.pos p <= t * 2 ^ Z.pos p)
            by (apply Z.mul_le_mono_nonneg_r; lia).
          assert (Hlt : 2 ^ Z.pos p < 2 ^ Z.pos (digits2_pos m)).
          { destruct (Z.compare_spec (t * 2 ^ Z.pos p) (Z.pos m));
              try discriminate; lia. }
          apply Z.pow_lt_mono_r_iff in Hlt; lia. }
        destruct (Z.compare_spec e (-72)); try reflexivity; lia.
Qed.

Lemma num_abs_valid (x : number) : num_valid (num_abs x) = num_valid x.
Proof. destruct x as [z|[s|s| |s m e]]; reflexivity. Qed.

(** C3: [round_result] follows the piecewise rule on [|value|]: exactly 0
    below 1e-6, then 6, 4, 2 and 1 decimal places on [1e-6, 1), [1, 100),
    [100, 10000) and from 10000 on; and the four examples of the
    specification hold under Python's [==], with 12345 and 50 given as
    ints or as floats. *)
Theorem round_result_piecewise :
  (forall value : number,
      num_valid value = true ->
      let a := num_abs value in
      (num_lt a (Float (lit 1 6)) = true -> round_result value = Int 0)
      /\ (num_le (Float (lit 1 6)) a = true -> num_lt a (Int 1) = true ->
          round_result value = Py.round value 6)
      /\ (num_le (Int 1) a = true -> num_lt a (Int 100) = true ->
          round_result value = Py.round value 4)
      /\ (num_le (Int 100) a = true -> num_lt a (Int 10000) = true ->
          round_result value = Py.round value 2)
      /\ (num_le (Int 10000) a = true ->
          round_result value = Py.round value 1))
  /\ num_eq (round_result (Float (lit 1 7))) (Int 0) = true
  /\ num_eq (round_result (Float (lit 5 1))) (Float (lit 5 1)) = true
  /\ num_eq (round_result (Int 12345)) (Float (lit 123450 1)) = true
  /\ num_eq (round_result (Float (lit 123450 1))) (Float (lit 123450 1))
     = true
  /\ num_eq (round_result (Int 50)) (Float (lit 500 1)) = true
  /\ num_eq (round_result (Float (lit 500 1))) (Float (lit 500 1)) = true.
Proof.
  split; [|repeat split; vm_compute; reflexivity].
  intros value Hv a.
  assert (Ha : num_valid a = true) by (subst a; now rewrite num_abs_valid).
  unfold round_result. fold a.
  split; [intros ->; reflexivity|].
  split.
  { intros Hlo ->. now rewrite (num_le_not_lt _ _ Hlo). }
  split.
  { intros Hlo ->.
    now rewrite (above_one_not_tiny 1 a ltac:(lia) Ha Hlo),
                (num_le_not_lt _ _ Hlo). }
  split.
  { intros Hlo ->.
    now rewrite (above_one_not_tiny 100 a ltac:(lia) Ha Hlo),
                (int_threshold_mono 1 100 a ltac:(lia) Hlo),
                (num_le_not_lt _ _ Hlo). }
  intros Hlo.
  now rewrite (above_one_not_tiny 10000 a ltac:(lia) Ha Hlo),
              (int_threshold_mono 1 10000 a ltac:(lia) Hlo),
              (int_threshold_mono 100 10000 a ltac:(lia) Hlo),
              (num_le_not_lt _ _ Hlo).
Qed.

Lemma round_result_piecewise_witness :
  round_result (Float (lit 123456 2))
  = Py.round (Float (lit 123456 2)) 2.
Proof.
  apply (proj1 (proj2 (proj2 (proj2
           (proj1 round_result_piecewise (Float (lit 123456 2))
                  eq_refl)))));
    reflexivity.
Defined.

(** ** Negation and the rounding policy *)

Lemma num_abs_neg (x : number) : num_abs (num_neg x) = num_abs x.
Proof.
  destruct x as [z|[s|s| |s m e]]; simpl; try reflexivity.
  now rewrite Z.abs_opp.
Qed.

Lemma py_round_neg (x : number) (n : nat) :
  Py.round (num_neg x) n = num_neg (Py.round x n).
Proof.
  destruct x as [z|f]; simpl; [reflexivity|].
  unfold Float64.neg. now rewrite round_opp.
Qed.

Lemma round_result_neg (x : number) :
  round_result (num_neg x) = num_neg (round_result x).
Proof.
  unfold round_result. rewrite num_abs_neg, !py_round_neg.
  repeat match goal with
         | |- context [if ?c then _ else _] => destruct c
         end; reflexivity.
Qed.

Lemma SFcompare_refl (f : Float64.float) :
  Float64.is_nan f = false -> SFcompare f f = Some Eq.
Proof.
  destruct f as [s|s| |s m e]; simpl; try discriminate; intros _;
    try (destruct s; reflexivity).
  now destruct s; rewrite Z.compare_refl, Pos.compare_cont_refl.
Qed.

Lemma num_eq_refl (x : number) : num_is_nan x = false -> num_eq x x = true.
Proof.
  destruct x as [z|f]; unfold num_eq; simpl.
  - now rewrite Z.compare_refl.
  - intros H. now rewrite (SFcompare_refl f H).
Qed.

Lemma py_round_not_nan (x : number) (n : nat) :
  num_is_nan x = false -> num_is_nan (Py.round x n) = false.
Proof. destruct x as [z|f]; simpl; [reflexivity | apply round_not_nan]. Qed.

Lemma round_result_not_nan (x : number) :
  num_is_nan x = false -> num_is_nan (round_result x) = false.
Proof.
  intros H. unfold round_result.
  repeat match goal with
         | |- context [if ?c then _ else _] => destruct c
         end; try reflexivity; now apply py_round_not_nan.
Qed.

Lemma num_neg_not_nan (x : number) : num_is_nan (num_neg x) = num_is_nan x.
Proof. destruct x as [z|[s|s| |s m e]]; reflexivity. Qed.

(** C10: [round_result] is antisymmetric under negation: for every
    number, [round_result(-v)] and [-round_result(v)] are the same
    number (both are 0 below 1e-6), and Python's [==] holds between them
    whenever [v] is not NaN. *)
Theorem round_result_antisymmetric (v : number) :
  round_result (num_neg v) = num_neg (round_result v)
  /\ (num_is_nan v = false ->
      num_eq (round_result (num_neg v)) (num_neg (round_result v)) = true).
Proof.
  split; [apply round_result_neg|].
  intros H. rewrite round_result_neg. apply num_eq_refl.
  rewrite num_neg_not_nan. now apply round_result_not_nan.
Qed.

Lemma round_result_antisymmetric_witness :
  num_eq (round_result (num_neg (Float (lit 2675 3))))
         (num_neg (round_result (Float (lit 2675 3)))) = true.
Proof.
  apply (proj2 (round_result_antisymmetric (Float (lit 2675 3)))).
  reflexivity.
Defined.

(** ** The [/convert] endpoint *)

Import UnitConversionRequest.

Lemma get_contains (V : Type) (d : dict V) (k : string) (v : V) :
  get d k = Some v -> contains d k = true.
Proof. unfold contains. now intros ->. Qed.

(** What the root validator has checked when it lets a request pass. *)
Lemma validate_units_passes vs vs' c f u :
  get_category vs = Some c ->
  get_from_unit vs = Some f ->
  get_to_unit vs = Some u ->
  validate_units vs = Ok vs' ->
  exists entry,
    get UNIT_CATEGORIES c = Some entry
    /\ contains (units entry) f = true
    /\ contains (units entry) u = true.
Proof.
  intros Hc Hf Hu. unfold validate_units, not_in, getitem.
  rewrite Hc, Hf, Hu. unfold contains at 1.
  destruct (get UNIT_CATEGORIES c) as [entry|]; [|discriminate].
  cbn [negb bind]. exists entry. split; [reflexivity|].
  destruct (contains (units entry) f); [|discriminate].
  destruct (contains (units entry) u); [|discriminate].
  now split.
Qed.

Lemma parse_accepts vs request :
  parse vs = inr request ->
  get_category vs = Some (category request)
  /\ get_from_unit vs = Some (from_unit request)
  /\ get_to_unit vs = Some (to_unit request)
  /\ get_value vs = Some (value request)
  /\ exists vs', validate_units vs = Ok vs'.
Proof.
  unfold parse.
  destruct (get_category vs) as [c|]; [|discriminate].
  destruct (get_from_unit vs) as [f|]; [|discriminate].
  destruct (get_to_unit vs) as [u|]; [|discriminate].
  destruct (get_value vs) as [v|]; [|discriminate].
  destruct (validate_units vs) as [vs'|e]; [|discriminate].
  intros [= <-]. simpl. repeat split. now exists vs'.
Qed.

Lemma temperature_units_known entry u :
  get UNIT_CATEGORIES "temperature" = Some entry ->
  contains (units entry) u = true ->
  In u TEMPERATURE_UNITS.
Proof.
  intros [= <-]. unfold contains. simpl.
  destruct (String.eqb_spec u "celsius") as [->|_]; [auto|].
  destruct (String.eqb_spec u "fahrenheit") as [->|_]; [auto|].
  destruct (String.eqb_spec u "kelvin") as [->|_]; [auto|].
  discriminate.
Qed.

Lemma convert_temperature_total value from_unit to_unit :
  In from_unit TEMPERATURE_UNITS ->
  In to_unit TEMPERATURE_UNITS ->
  exists r, convert_temperature value from_unit to_unit = Ok r.
Proof.
  intros Hf Ht. destruct (string_dec from_unit to_unit) as [->|Hne].
  - eexists. apply convert_temperature_same.
  - eexists. now apply convert_temperature_steps.
Qed.

(** On validated units the conversion of the request's category returns. *)
Lemma conversion_total c entry f u v :
  get UNIT_CATEGORIES c = Some entry ->
  contains (units entry) f = true ->
  contains (units entry) u = true ->
  exists conversion_func r,
    get CONVERSION_FUNC c = Some conversion_func
    /\ conversion_func v f u = Ok r.
Proof.
  intros Hg Hf Hu.
  pose proof (get_In _ _ _ _ Hg) as Hin.
  destruct Hin as [H|[H|[H|[H|[]]]]]; injection H as <- He.
  - exists convert_length.
    destruct (linear_conversion_returns "length" convert_length entry f u v)
      as [a [b [_ [_ Hr]]]]; simpl; eauto.
  - exists convert_weight.
    destruct (linear_conversion_returns "weight" convert_weight entry f u v)
      as [a [b [_ [_ Hr]]]]; simpl; eauto.
  - exists convert_temperature.
    destruct (convert_temperature_total v f u) as [r Hr];
      eauto using temperature_units_known.
  - exists convert_speed.
    destruct (linear_conversion_returns "speed" convert_speed entry f u v)
      as [a [b [_ [_ Hr]]]]; simpl; eauto 6.
Qed.

(** The rounded result always fits the response's float field. *)
Lemma rounded_result_is_float (r : Float64.float) :
  exists converted, to_float (round_result (Float r)) = Ok converted.
Proof.
  unfold round_result.
  repeat match goal with
         | |- context [if ?c then _ else _] => destruct c
         end; simpl; eauto.
Qed.

(** On validated units the handler returns the model that echoes the
    request and carries the rounded result of the conversion. *)
Lemma convert_units_echoes request entry :
  get UNIT_CATEGORIES (category request) = Some entry ->
  contains (units entry) (from_unit request) = true ->
  contains (units entry) (to_unit request) = true ->
  exists conversion_func result converted,
    get CONVERSION_FUNC (category request) = Some conversion_func
    /\ conversion_func (value request) (from_unit request) (to_unit request)
       = Ok result
    /\ to_float (round_result (Float result)) = Ok converted
    /\ convert_units request = Ok (echo_response request converted).
Proof.
  intros Hg Hfin Huin.
  destruct (conversion_total _ entry _ _ (value request) Hg Hfin Huin)
    as [conv [r [Hconv Hr]]].
  destruct (rounded_result_is_float r) as [converted Hround].
  exists conv, r, converted. repeat (split; [assumption|]).
  unfold convert_units, getitem. rewrite Hconv. cbn [bind].
  rewrite Hr. cbn [try_except bind]. rewrite Hround. reflexivity.
Qed.

(** C9: a valid request is not always echoed.  1.7976931348623157e308
    miles in millimeters passes validation and [convert_units] returns
    the model that echoes the request, with an infinite converted value;
    the model cannot be rendered and the client gets an internal server
    error with none of the request's fields.  The same happens when the
    value itself is NaN. *)
Theorem overflowing_conversion_is_not_echoed :
  Float64.is_finite max_float = true
  /\ parse {| get_category := Some "length";
              get_from_unit := Some "miles";
              get_to_unit := Some "millimeters";
              get_value := Some max_float |}
     = inr {| category := "length"; from_unit := "miles";
              to_unit := "millimeters"; value := max_float |}
  /\ convert_units {| category := "length"; from_unit := "miles";
                      to_unit := "millimeters"; value := max_float |}
     = Ok {| UnitConversionResponse.category := "length";
             UnitConversionResponse.from_unit := "miles";
             UnitConversionResponse.to_unit := "millimeters";
             UnitConversionResponse.input_value := max_float;
             UnitConversionResponse.converted_value :=
               S754_infinity false |}
  /\ post_convert {| get_category := Some "length";
                     get_from_unit := Some "miles";
                     get_to_unit := Some "millimeters";
                     get_value := Some max_float |}
     = {| Http.status_code := 500;
          Http.body := Http.InternalServerError |}
  /\ post_convert {| get_category := Some "temperature";
                     get_from_unit := Some "celsius";
                     get_to_unit := Some "celsius";
                     get_value := Some S754_nan |}
     = {| Http.status_code := 500;
          Http.body := Http.InternalServerError |}.
Proof. repeat split; vm_compute; reflexivity. Qed.




(** ** The currency endpoints *)

Section CurrencyErrors.

Variable upper : string -> string.
Variable client_get : string -> dict object -> result Upstream.response.
Variable req : CurrencyConversionRequest.t.




(** The handler's steps once the payload is a JSON object. *)
Lemma decoded_object r d :
  client_get CURRENCY_API_URL (currency_params upper req) = Ok r ->
  Upstream.is_success r = true ->
  Upstream.json r = Ok (VDict d) ->
  post_currency_convert upper client_get req
  = Http.respond
      (success <- obj_get (VDict d) "success" (VBool true) ;;
       if negb (truthy success) then
         error <- obj_get (VDict d) "error" (VStr "Unknown error") ;;
         Raise (HTTPException 400
                  [Text "Currency conversion failed: "; Fmt error])
       else
         rate <-
           (has_info <- obj_contains (VDict d) "info" ;;
            if has_info then
              info <- obj_getitem (VDict d) "info" ;;
              has_rate <- obj_contains info "rate" ;;
              if has_rate then
                info <- obj_getitem (VDict d) "info" ;;
                obj_getitem info "rate"
              else Ok VNone
            else Ok VNone) ;;
         converted <- obj_get (VDict d) "result" VNone ;;
         if is_none converted || is_none rate then
           Raise (HTTPException 502
                    [Text "Currency API returned incomplete data"])
         else
           converted_amount <- round_result_of converted ;;
           rounded_rate <- round_result_of rate ;;
           converted_amount <- to_float converted_amount ;;
           rounded_rate <- to_float rounded_rate ;;
           Ok {| CurrencyConversionResponse.from_currency :=
                   upper (CurrencyConversionRequest.from_currency req);
                 CurrencyConversionResponse.to_currency :=
                   upper (CurrencyConversionRequest.to_currency req);
                 CurrencyConversionResponse.input_amount :=
                   CurrencyConversionRequest.amount req;
                 CurrencyConversionResponse.converted_amount :=
                   converted_amount;
                 CurrencyConversionResponse.rate := rounded_rate |}).
Proof.
  unfold currency_params, post_currency_convert, convert_currency.
  cbv zeta. intros -> H E. cbn [bind].
  unfold Upstream.raise_for_status. rewrite H. cbn [bind].
  rewrite E. reflexivity.
Qed.




End CurrencyErrors.



(** C5: a payload that lacks the rate is not always answered 502.  When
    the provider answers 200 with [{"result": 925, "info": null}], the
    test ["rate" in data["info"]] raises a [TypeError] outside the [try]
    block, and the client gets an internal server error; so it does for
    a payload that is a JSON array. *)
Theorem null_info_payload_is_500 upper req :
  lacking (payload_rate [("result", VNum (Int 925)); ("info", VNone)]) = true
  /\ post_currency_convert upper
       (fun _ _ =>
          Ok {| Upstream.status_code := 200;
                Upstream.status_message := "OK";
                Upstream.json :=
                  Ok (VDict [("result", VNum (Int 925));
                             ("info", VNone)]) |})
       req
     = {| Http.status_code := 500; Http.body := Http.InternalServerError |}
  /\ post_currency_convert upper
       (fun _ _ =>
          Ok {| Upstream.status_code := 200;
                Upstream.status_message := "OK";
                Upstream.json := Ok (VList []) |})
       req
     = {| Http.status_code := 500; Http.body := Http.InternalServerError |}.
Proof. repeat split. Qed.

(** C7: [GET /currency/symbols] has no [try] around its call to the
    provider.  A failed exchange, a status outside 2xx and a payload
    that is not an object all leave the handler as exceptions that are
    not [HTTPException], and the client gets an internal server error;
    while [POST /currency/convert] turns the first two into 502. *)
Theorem symbols_upstream_failure_is_500 :
  (forall msg,
      get_currency_symbols_endpoint (fun _ _ => Raise (TransportError msg))
      = {| Http.status_code := 500; Http.body := Http.InternalServerError |})
  /\ (forall msg,
         get_currency_symbols_endpoint
           (fun _ _ => Ok {| Upstream.status_code := 503;
                             Upstream.status_message := msg;
                             Upstream.json := Raise (JSONDecodeError msg) |})
         = {| Http.status_code := 500;
              Http.body := Http.InternalServerError |})
  /\ get_currency_symbols_endpoint
       (fun _ _ => Ok {| Upstream.status_code := 200;
                         Upstream.status_message := "OK";
                         Upstream.json := Ok (VList []) |})
     = {| Http.status_code := 500; Http.body := Http.InternalServerError |}
  /\ (forall upper req msg,
         Http.status_code
           (post_currency_convert upper
              (fun _ _ => Raise (TransportError msg)) req) = 502).
Proof. repeat split. Qed.

(** * Further properties of the endpoints *)

(** ** Menus and validation *)

Lemma keys_contains (V : Type) (d : dict V) (k : string) :
  In k (keys d) -> contains d k = true.
Proof.
  unfold contains. induction d as [|[k' v'] d IH]; simpl; [tauto|].
  intros [->|H].
  - now rewrite String.eqb_refl.
  - destruct (String.eqb k k'); [reflexivity | now apply IH].
Qed.

Lemma parse_valid c entry f u v :
  get UNIT_CATEGORIES c = Some entry ->
  contains (units entry) f = true ->
  contains (units entry) u = true ->
  parse {| get_category := Some c; get_from_unit := Some f;
           get_to_unit := Some u; get_value := Some v |}
  = inr {| category := c; from_unit := f; to_unit := u; value := v |}.
Proof.
  intros Hg Hf Hu. unfold parse, validate_units, not_in, getitem.
  cbn [get_category get_from_unit get_to_unit get_value].
  rewrite (get_contains _ _ _ _ Hg), Hg. cbn [negb bind].
  now rewrite Hf, Hu.
Qed.

(** X1: the menus feed the converter.  Whatever two units
    [GET /units] lists for a category, a request to convert between them
    is never rejected: [convert_units] returns the model that echoes the
    request, and [POST /convert] answers 200 with it when the value and
    the converted value are finite, and with an internal server error
    when one of them is not. *)
Theorem listed_units_convert c listed u1 u2 v :
  get_units c = Ok listed ->
  In u1 listed -> In u2 listed ->
  exists converted,
    convert_units
      {| category := c; from_unit := u1; to_unit := u2; value := v |}
    = Ok (echo_response
            {| category := c; from_unit := u1; to_unit := u2; value := v |}
            converted)
    /\ post_convert {| get_category := Some c; get_from_unit := Some u1;
                       get_to_unit := Some u2; get_value := Some v |}
       = if Float64.is_finite v && Float64.is_finite converted then
           {| Http.status_code := 200;
              Http.body :=
                Http.Model
                  (echo_response
                     {| category := c; from_unit := u1; to_unit := u2;
                        value := v |} converted) |}
         else {| Http.status_code := 500;
                 Http.body := Http.InternalServerError |}.
Proof.
  unfold get_units, getitem, contains.
  destruct (get UNIT_CATEGORIES c) as [entry|] eqn:Hg; [|discriminate].
  cbn [negb bind]. intros [= <-] H1 H2.
  apply keys_contains in H1. apply keys_contains in H2.
  destruct (convert_units_echoes
              {| category := c; from_unit := u1; to_unit := u2; value := v |}
              entry Hg H1 H2) as [conv [r [converted [_ [_ [_ Hok]]]]]].
  exists converted. split; [exact Hok|].
  unfold post_convert. rewrite (parse_valid c entry u1 u2 v Hg H1 H2), Hok.
  reflexivity.
Qed.

Lemma listed_units_convert_witness :
  exists converted,
    post_convert {| get_category := Some "weight";
                    get_from_unit := Some "stones";
                    get_to_unit := Some "ounces";
                    get_value := Some (lit 115 1) |}
    = if Float64.is_finite (lit 115 1) && Float64.is_finite converted then
        {| Http.status_code := 200;
           Http.body :=
             Http.Model
               (echo_response
                  {| category := "weight"; from_unit := "stones";
                     to_unit := "ounces"; value := lit 115 1 |}
                  converted) |}
      else {| Http.status_code := 500;
              Http.body := Http.InternalServerError |}.
Proof.
  destruct (listed_units_convert "weight"
              ["kilograms"; "grams"; "milligrams"; "pounds"; "ounces";
               "stones"; "tons"] "stones" "ounces" (lit 115 1))
    as [converted [_ H]];
    [reflexivity | simpl; tauto | simpl; tauto |].
  exists converted. exact H.
Defined.

(** X2: every category [GET /categories] lists is known to
    [GET /units], which answers with a list of units that is not
    empty; a category it does not list gets the 400 of [get_units]. *)
Theorem listed_categories_have_units :
  exists items,
    get_categories = Ok items
    /\ (forall item key,
           In item items -> get item "key" = Some key ->
           exists listed, get_units key = Ok listed /\ listed <> [])
    /\ (forall key,
           (forall item, In item items -> get item "key" <> Some key) ->
           Http.respond (get_units key)
           = {| Http.status_code := 400;
                Http.body :=
                  Http.Detail [Text "Invalid category: ";
                               Fmt (VStr key)] |}).
Proof.
  eexists. split; [vm_compute; reflexivity|]. split.
  - intros item key Hin Hk. simpl in Hin.
    destruct Hin as [<-|[<-|[<-|[<-|[]]]]]; injection Hk as <-;
      eexists; (split; [reflexivity | discriminate]).
  - intros key Hout. unfold get_units, contains.
    destruct (get UNIT_CATEGORIES key) as [entry|] eqn:Hg; [|reflexivity].
    exfalso. apply get_In in Hg. simpl in Hg.
    destruct Hg as [H|[H|[H|[H|[]]]]]; injection H as <- _.
    + exact (Hout _ (or_introl eq_refl) eq_refl).
    + exact (Hout _ (or_intror (or_introl eq_refl)) eq_refl).
    + exact (Hout _ (or_intror (or_intror (or_introl eq_refl))) eq_refl).
    + exact (Hout _ (or_intror (or_intror (or_intror (or_introl eq_refl))))
               eq_refl).
Qed.

Lemma listed_categories_have_units_witness :
  Http.respond (get_units "volume")
  = {| Http.status_code := 400;
       Http.body :=
         Http.Detail [Text "Invalid category: "; Fmt (VStr "volume")] |}.
Proof.
  destruct listed_categories_have_units as [items [Hitems [_ H]]].
  apply H. intros item Hin.
  vm_compute in Hitems. injection Hitems as <-.
  simpl in Hin. destruct Hin as [<-|[<-|[<-|[<-|[]]]]]; discriminate.
Defined.

(** X3: the request model accepts exactly the bodies whose four fields
    are present, whose category is in the table and whose two units are
    in that category's table; the model then holds the fields as
    given. *)
Theorem parse_accepts_exactly vs request :
  parse vs = inr request
  <-> (get_category vs = Some (category request)
       /\ get_from_unit vs = Some (from_unit request)
       /\ get_to_unit vs = Some (to_unit request)
       /\ get_value vs = Some (value request)
       /\ exists entry,
           get UNIT_CATEGORIES (category request) = Some entry
           /\ contains (units entry) (from_unit request) = true
           /\ contains (units entry) (to_unit request) = true).
Proof.
  split.
  - intros Hp.
    destruct (parse_accepts vs request Hp) as [Hc [Hf [Hu [Hv [vs' Hok]]]]].
    repeat (split; [assumption|]).
    exact (validate_units_passes vs vs' _ _ _ Hc Hf Hu Hok).
  - intros [Hc [Hf [Hu [Hv [entry [Hg [Hfin Huin]]]]]]].
    destruct vs as [c f u v], request as [c' f' u' v'].
    cbn [get_category get_from_unit get_to_unit get_value
         category from_unit to_unit value] in Hc, Hf, Hu, Hv, Hg, Hfin, Huin.
    subst c f u v.
    exact (parse_valid c' entry f' u' v' Hg Hfin Huin).
Qed.

Lemma parse_accepts_exactly_witness :
  parse {| get_category := Some "temperature";
           get_from_unit := Some "kelvin";
           get_to_unit := Some "celsius";
           get_value := Some (lit 27315 2) |}
  = inr {| category := "temperature"; from_unit := "kelvin";
           to_unit := "celsius"; value := lit 27315 2 |}.
Proof.
  apply (proj2 (parse_accepts_exactly _ _)).
  repeat (split; [reflexivity|]).
  eexists. repeat split.
Defined.



(** ** The handler behind the model *)

Lemma not_contains_get (V : Type) (d : dict V) (k : string) :
  contains d k = false -> get d k = None.
Proof. unfold contains. now destruct (get d k). Qed.

Lemma linear_conversion_func key f :
  In (key, f) LINEAR_CONVERSIONS -> get CONVERSION_FUNC key = Some f.
Proof. intros [H|[H|[H|[]]]]; injection H as <- <-; reflexivity. Qed.

(** X6: handed a unit that is not in a linear category's table,
    [convert_units] answers 400 with the [KeyError] of the missing unit,
    the source unit first. *)
Theorem unlisted_linear_unit_gives_400 key f entry from_unit to_unit v :
  In (key, f) LINEAR_CONVERSIONS ->
  get UNIT_CATEGORIES key = Some entry ->
  contains (units entry) from_unit = false
  \/ contains (units entry) to_unit = false ->
  let bad := if contains (units entry) from_unit then to_unit
             else from_unit in
  contains (units entry) bad = false
  /\ f v from_unit to_unit = Raise (KeyError bad)
  /\ Http.respond
       (convert_units {| category := key; from_unit := from_unit;
                         to_unit := to_unit; value := v |})
     = {| Http.status_code := 400;
          Http.body := Http.Detail [Repr (VStr bad)] |}.
Proof.
  intros Hin Hg Hbad bad.
  destruct (linear_tables_usable key f entry Hin Hg) as [Hf Hall].
  assert (Hraise : f v from_unit to_unit = Raise (KeyError bad)
                   /\ contains (units entry) bad = false).
  { subst f bad. unfold convert_through_base, getitem. rewrite Hg.
    cbn [bind].
    destruct (contains (units entry) from_unit) eqn:Efrom.
    - destruct Hbad as [H|Hto]; [discriminate|].
      destruct (usable_scale_get entry from_unit Hall Efrom) as [a [-> _]].
      cbn [bind Py.mul]. now rewrite (not_contains_get _ _ _ Hto).
    - now rewrite (not_contains_get _ _ _ Efrom). }
  destruct Hraise as [Hraise Hnot].
  split; [exact Hnot|]. split; [exact Hraise|].
  unfold convert_units, getitem.
  cbn [UnitConversionRequest.category UnitConversionRequest.from_unit
       UnitConversionRequest.to_unit UnitConversionRequest.value].
  rewrite (linear_conversion_func key f Hin). cbn [bind].
  rewrite Hraise. reflexivity.
Qed.

Lemma unlisted_linear_unit_gives_400_witness :
  Http.respond
    (convert_units {| category := "speed"; from_unit := "mach";
                      to_unit := "warp"; value := Float64.of_int 2 |})
  = {| Http.status_code := 400;
       Http.body := Http.Detail [Repr (VStr "mach")] |}.
Proof.
  assert (Hg : get UNIT_CATEGORIES "speed" = Some ?[entry]) by reflexivity.
  exact (proj2 (proj2
           (unlisted_linear_unit_gives_400 "speed" convert_speed _
              "mach" "warp" (Float64.of_int 2)
              (or_intror (or_intror (or_introl eq_refl))) Hg
              (or_introl eq_refl)))).
Defined.

Lemma convert_temperature_unknown_source value from_unit to_unit :
  from_unit <> to_unit ->
  ~ In from_unit TEMPERATURE_UNITS ->
  convert_temperature value from_unit to_unit
  = Raise (ValueError [Text "Unsupported temperature unit: ";
                       Fmt (VStr from_unit)]).
Proof.
  intros Hne Hbad. unfold convert_temperature.
  destruct (String.eqb_spec from_unit to_unit) as [E|_]; [contradiction|].
  destruct (String.eqb_spec from_unit "celsius") as [->|_];
    [known_unit Hbad|].
  destruct (String.eqb_spec from_unit "fahrenheit") as [->|_];
    [known_unit Hbad|].
  destruct (String.eqb_spec from_unit "kelvin") as [->|_];
    [known_unit Hbad|].
  reflexivity.
Qed.

Lemma convert_temperature_unknown_target value from_unit to_unit :
  In from_unit TEMPERATURE_UNITS ->
  ~ In to_unit TEMPERATURE_UNITS ->
  convert_temperature value from_unit to_unit
  = Raise (ValueError [Text "Unsupported temperature unit: ";
                       Fmt (VStr to_unit)]).
Proof.
  intros Hin Hbad.
  destruct (convert_temperature_unknown_unit value from_unit to_unit)
    as [bad [[-> | ->] [Hnot H]]]; try assumption.
  - intros ->. contradiction.
  - now right.
  - contradiction.
Qed.

(** X7: with two different temperature unit names of which one is
    unknown, [convert_temperature] raises a [ValueError] that names the
    source unit if that one is unknown and the target unit otherwise,
    and [convert_units] answers 400 with that message. *)
Theorem unknown_temperature_unit_gives_400 v from_unit to_unit :
  from_unit <> to_unit ->
  ~ In from_unit TEMPERATURE_UNITS \/ ~ In to_unit TEMPERATURE_UNITS ->
  exists bad,
    ((~ In from_unit TEMPERATURE_UNITS /\ bad = from_unit)
     \/ (In from_unit TEMPERATURE_UNITS /\ bad = to_unit))
    /\ convert_temperature v from_unit to_unit
       = Raise (ValueError [Text "Unsupported temperature unit: ";
                            Fmt (VStr bad)])
    /\ Http.respond
         (convert_units {| category := "temperature";
                           from_unit := from_unit;
                           to_unit := to_unit; value := v |})
       = {| Http.status_code := 400;
            Http.body :=
              Http.Detail [Text "Unsupported temperature unit: ";
                           Fmt (VStr bad)] |}.
Proof.
  intros Hne Hbad.
  assert (Hdec : In from_unit TEMPERATURE_UNITS
                 \/ ~ In from_unit TEMPERATURE_UNITS).
  { destruct (in_dec string_dec from_unit TEMPERATURE_UNITS); tauto. }
  assert (H : exists bad,
             ((~ In from_unit TEMPERATURE_UNITS /\ bad = from_unit)
              \/ (In from_unit TEMPERATURE_UNITS /\ bad = to_unit))
             /\ convert_temperature v from_unit to_unit
                = Raise (ValueError [Text "Unsupported temperature unit: ";
                                     Fmt (VStr bad)])).
  { destruct Hdec as [Hin|Hout].
    - exists to_unit. split; [now right|].
      apply convert_temperature_unknown_target; tauto.
    - exists from_unit. split; [now left|].
      now apply convert_temperature_unknown_source. }
  destruct H as [bad [Hwhich Hraise]].
  exists bad. split; [exact Hwhich|]. split; [exact Hraise|].
  unfold convert_units, getitem.
  cbn [UnitConversionRequest.category UnitConversionRequest.from_unit
       UnitConversionRequest.to_unit UnitConversionRequest.value].
  change (get CONVERSION_FUNC "temperature") with (Some convert_temperature).
  cbn [bind].
  rewrite Hraise. reflexivity.
Qed.

Lemma unknown_temperature_unit_gives_400_witness :
  exists bad,
    Http.respond
      (convert_units {| category := "temperature"; from_unit := "celsius";
                        to_unit := "rankine"; value := Float64.of_int 2 |})
    = {| Http.status_code := 400;
         Http.body :=
           Http.Detail [Text "Unsupported temperature unit: ";
                        Fmt (VStr bad)] |}.
Proof.
  destruct (unknown_temperature_unit_gives_400 (Float64.of_int 2)
              "celsius" "rankine") as [bad [_ [_ H]]].
  - discriminate.
  - right. simpl. intuition discriminate.
  - exists bad. exact H.
Defined.

(** ** Linear conversions as functions of the value *)

Lemma mul_opp (v s : Float64.float) :
  Float64.mul (SFopp v) s = SFopp (Float64.mul v s).
Proof.
  destruct v as [b|b| |b m e], s as [c|c| |c n e'];
    cbv beta iota delta [Float64.mul SFmul SFopp];
    try reflexivity; try (now destruct b, c).
  replace (xorb (negb b) c) with (negb (xorb b c)) by now destruct b, c.
  apply binary_round_aux_opp.
Qed.

Lemma div_opp (x s : Float64.float) :
  Float64.div (SFopp x) s = SFopp (Float64.div x s).
Proof.
  destruct x as [b|b| |b m e], s as [c|c| |c n e'];
    cbv beta iota delta [Float64.div SFdiv SFopp];
    try reflexivity; try (now destruct b, c).
  destruct (SFdiv_core_binary Float64.prec Float64.emax
              (Z.pos m) e (Z.pos n) e') as [[mz ez] lz].
  replace (xorb (negb b) c) with (negb (xorb b c)) by now destruct b, c.
  apply binary_round_aux_opp.
Qed.

(** X8: the linear conversions are odd functions of the value: between
    two units of the table, converting [-v] gives the negation of what
    converting [v] gives, bit for bit. *)
Theorem linear_conversion_odd key f entry from_unit to_unit v :
  In (key, f) LINEAR_CONVERSIONS ->
  get UNIT_CATEGORIES key = Some entry ->
  contains (units entry) from_unit = true ->
  contains (units entry) to_unit = true ->
  exists r,
    f v from_unit to_unit = Ok r
    /\ f (Float64.neg v) from_unit to_unit = Ok (Float64.neg r).
Proof.
  intros Hin Hg Hfrom Hto.
  destruct (linear_conversion_returns key f entry from_unit to_unit v
              Hin Hg Hfrom Hto) as [a [b [Ha [Hb H]]]].
  destruct (linear_conversion_returns key f entry from_unit to_unit
              (Float64.neg v) Hin Hg Hfrom Hto) as [a' [b' [Ha' [Hb' H']]]].
  rewrite Ha in Ha'. rewrite Hb in Hb'.
  injection Ha' as <-. injection Hb' as <-.
  eexists. split; [exact H|]. rewrite H'.
  unfold Float64.neg. now rewrite mul_opp, div_opp.
Qed.

Lemma linear_conversion_odd_witness :
  exists r,
    convert_length (lit 15 1) "miles" "feet" = Ok r
    /\ convert_length (Float64.neg (lit 15 1)) "miles" "feet"
       = Ok (Float64.neg r).
Proof.
  assert (Hg : get UNIT_CATEGORIES "length" = Some ?[entry]) by reflexivity.
  exact (linear_conversion_odd "length" convert_length _ "miles" "feet"
           (lit 15 1) (or_introl eq_refl) Hg eq_refl eq_refl).
Defined.

Lemma linear_tables_positive key f entry :
  In (key, f) LINEAR_CONVERSIONS ->
  get UNIT_CATEGORIES key = Some entry ->
  forallb positive_scale (units entry) = true.
Proof.
  intros [H|[H|[H|[]]]] Hg; injection H as <- <-;
    vm_compute in Hg; injection Hg as <-; vm_compute; reflexivity.
Qed.

Lemma positive_scale_get entry u s :
  forallb positive_scale (units entry) = true ->
  get (units entry) u = Some (Some s) ->
  exists m e, s = S754_finite false m e.
Proof.
  intros Hall Hu. rewrite forallb_forall in Hall.
  specialize (Hall _ (get_In _ _ _ _ Hu)). unfold positive_scale in Hall.
  simpl in Hall. destruct s as [b|b| |[] m e]; try discriminate. eauto.
Qed.

(** X9: zeros, infinities and NaN go through every linear conversion
    unchanged, sign included. *)
Theorem linear_conversion_special key f entry from_unit to_unit v :
  In (key, f) LINEAR_CONVERSIONS ->
  get UNIT_CATEGORIES key = Some entry ->
  contains (units entry) from_unit = true ->
  contains (units entry) to_unit = true ->
  is_special v = true ->
  f v from_unit to_unit = Ok v.
Proof.
  intros Hin Hg Hfrom Hto Hv.
  destruct (linear_conversion_returns key f entry from_unit to_unit v
              Hin Hg Hfrom Hto) as [a [b [Ha [Hb ->]]]].
  pose proof (linear_tables_positive key f entry Hin Hg) as Hpos.
  destruct (positive_scale_get entry from_unit a Hpos Ha) as [m [e ->]].
  destruct (positive_scale_get entry to_unit b Hpos Hb) as [n [e' ->]].
  destruct v as [s|s| |s mv ev]; try discriminate;
    try (destruct s); reflexivity.
Qed.

Lemma linear_conversion_special_witness :
  convert_speed (S754_infinity true) "knots" "km/h"
  = Ok (S754_infinity true).
Proof.
  assert (Hg : get UNIT_CATEGORIES "speed" = Some ?[entry]) by reflexivity.
  exact (linear_conversion_special "speed" convert_speed _ "knots" "km/h"
           (S754_infinity true)
           (or_intror (or_intror (or_introl eq_refl))) Hg
           eq_refl eq_refl eq_refl).
Defined.

Lemma mul_scale_nan (v : Float64.float) (m : positive) (e : Z) :
  Float64.is_nan (Float64.mul v (S754_finite false m e)) = Float64.is_nan v.
Proof.
  destruct v as [s|s| |s mv ev]; try reflexivity.
  cbv beta iota delta [Float64.mul SFmul].
  now apply binary_round_aux_not_nan.
Qed.

Lemma div_scale_nan (x : Float64.float) (m : positive) (e : Z) :
  Float64.is_nan (Float64.div x (S754_finite false m e)) = Float64.is_nan x.
Proof.
  destruct x as [s|s| |s mx ex]; try reflexivity.
  apply div_finite_not_nan.
Qed.

(** X10: a linear conversion returns NaN only for NaN: overflow gives an
    infinity and underflow a zero, never NaN. *)
Theorem linear_conversion_nan key f entry from_unit to_unit v :
  In (key, f) LINEAR_CONVERSIONS ->
  get UNIT_CATEGORIES key = Some entry ->
  contains (units entry) from_unit = true ->
  contains (units entry) to_unit = true ->
  exists r,
    f v from_unit to_unit = Ok r
    /\ Float64.is_nan r = Float64.is_nan v.
Proof.
  intros Hin Hg Hfrom Hto.
  destruct (linear_conversion_returns key f entry from_unit to_unit v
              Hin Hg Hfrom Hto) as [a [b [Ha [Hb H]]]].
  pose proof (linear_tables_positive key f entry Hin Hg) as Hpos.
  destruct (positive_scale_get entry from_unit a Hpos Ha) as [m [e ->]].
  destruct (positive_scale_get entry to_unit b Hpos Hb) as [n [e' ->]].
  eexists. split; [exact H|].
  now rewrite div_scale_nan, mul_scale_nan.
Qed.

Lemma linear_conversion_nan_witness :
  exists r,
    convert_length (S754_finite false 9007199254740991 971)
                   "miles" "millimeters" = Ok r
    /\ Float64.is_nan r = false.
Proof.
  assert (Hg : get UNIT_CATEGORIES "length" = Some ?[entry]) by reflexivity.
  exact (linear_conversion_nan "length" convert_length _
           "miles" "millimeters" (S754_finite false 9007199254740991 971)
           (or_introl eq_refl) Hg eq_refl eq_refl).
Defined.

(** X11: converting out of a base unit (scale 1.0) is one division:
    the multiplication by 1.0 changes no float. *)
Theorem from_base_unit_is_one_division key f entry from_unit to_unit v :
  In (key, f) LINEAR_CONVERSIONS ->
  get UNIT_CATEGORIES key = Some entry ->
  get (units entry) from_unit = Some (Some one) ->
  contains (units entry) to_unit = true ->
  Float64.valid v = true ->
  exists s_to,
    get (units entry) to_unit = Some (Some s_to)
    /\ f v from_unit to_unit = Ok (Float64.div v s_to).
Proof.
  intros Hin Hg Hfrom Hto Hv.
  destruct (linear_conversion_returns key f entry from_unit to_unit v
              Hin Hg (get_contains _ _ _ _ Hfrom) Hto)
    as [a [b [Ha [Hb H]]]].
  rewrite Hfrom in Ha. injection Ha as <-.
  exists b. split; [exact Hb|]. now rewrite H, (mul_one v Hv).
Qed.

Lemma from_base_unit_is_one_division_witness :
  exists s_to,
    convert_weight (lit 25 1) "kilograms" "pounds"
    = Ok (Float64.div (lit 25 1) s_to).
Proof.
  assert (Hg : get UNIT_CATEGORIES "weight" = Some ?[entry]) by reflexivity.
  destruct (from_base_unit_is_one_division "weight" convert_weight _
              "kilograms" "pounds" (lit 25 1)
              (or_intror (or_introl eq_refl)) Hg eq_refl eq_refl eq_refl)
    as [s_to [_ H]].
  exists s_to. exact H.
Defined.

(** ** More on the rounding policy *)

(** X12: [round_result] returns every int unchanged. *)
Theorem round_result_int (z : Z) : round_result (Int z) = Int z.
Proof.
  destruct (Z.eq_dec z 0) as [->|Hz]; [reflexivity|].
  assert (Hle : num_le (Int 1) (num_abs (Int z)) = true).
  { unfold num_le, num_compare, num_abs.
    destruct (1 ?= Z.abs z) eqn:E; try reflexivity.
    apply Z.compare_gt_iff in E. lia. }
  unfold round_result.
  rewrite (above_one_not_tiny 1 (num_abs (Int z)) ltac:(lia) eq_refl Hle).
  repeat match goal with
         | |- context [if ?c then _ else _] => destruct c
         end; reflexivity.
Qed.

(** X13: [round_result] returns NaN for NaN and for nothing else, and
    returns the infinities unchanged. *)
Theorem round_result_not_finite :
  (forall x, num_is_nan (round_result x) = num_is_nan x)
  /\ (forall s,
         round_result (Float (S754_infinity s)) = Float (S754_infinity s)).
Proof.
  split.
  - intros x. destruct (num_is_nan x) eqn:E.
    + destruct x as [z|[s|s| |s m e]]; try discriminate. reflexivity.
    + now apply round_result_not_nan.
  - intros []; reflexivity.
Qed.

(** ** More on the currency endpoints *)

(** X14: when the provider answers 2xx with a JSON object that reports
    no failure and carries a numeric result and, in its [info] object,
    a numeric rate, [convert_currency] returns the upper-cased currency
    codes, the amount as received, and the result and the rate each
    passed through [round_result]; a missing [success] field counts as
    success.  [POST /currency/convert] answers 200 with that model when
    its three numbers are finite, and an internal server error when one
    of them is NaN or an infinity. *)
Theorem currency_conversion_succeeds
    upper client_get req r d info result rate converted rounded_rate :
  client_get CURRENCY_API_URL (currency_params upper req) = Ok r ->
  Upstream.is_success r = true ->
  Upstream.json r = Ok (VDict d) ->
  (forall s, get d "success" = Some s -> truthy s = true) ->
  get d "info" = Some (VDict info) ->
  get info "rate" = Some (VNum rate) ->
  get d "result" = Some (VNum result) ->
  to_float (round_result result) = Ok converted ->
  to_float (round_result rate) = Ok rounded_rate ->
  post_currency_convert upper client_get req
  = if Float64.is_finite (CurrencyConversionRequest.amount req)
       && Float64.is_finite converted
       && Float64.is_finite rounded_rate then
      {| Http.status_code := 200;
         Http.body :=
           Http.Model
             {| CurrencyConversionResponse.from_currency :=
                  upper (CurrencyConversionRequest.from_currency req);
                CurrencyConversionResponse.to_currency :=
                  upper (CurrencyConversionRequest.to_currency req);
                CurrencyConversionResponse.input_amount :=
                  CurrencyConversionRequest.amount req;
                CurrencyConversionResponse.converted_amount := converted;
                CurrencyConversionResponse.rate := rounded_rate |} |}
    else {| Http.status_code := 500;
            Http.body := Http.InternalServerError |}.
Proof.
  intros Hr Hs Hj Hok Hinfo Hrate Hresult Hc Hrr.
  rewrite (decoded_object upper client_get req r d Hr Hs Hj).
  unfold obj_get at 1. cbn [bind].
  assert (Ht : truthy match get d "success" with
                      | Some v => v
                      | None => VBool true
                      end = true).
  { destruct (get d "success") as [s|]; [now apply Hok | reflexivity]. }
  rewrite Ht. cbn [negb].
  unfold obj_contains at 1, contains. rewrite Hinfo. cbn [bind].
  unfold obj_getitem at 1, getitem. rewrite Hinfo. cbn [bind].
  unfold obj_contains, contains. rewrite Hrate. cbn [bind].
  unfold obj_getitem at 1, getitem. rewrite Hinfo. cbn [bind].
  unfold obj_getitem, getitem. rewrite Hrate. cbn [bind].
  unfold obj_get. rewrite Hresult. cbn [bind is_none orb].
  unfold round_result_of, as_number. cbn [bind].
  rewrite Hc, Hrr. reflexivity.
Qed.

Lemma currency_conversion_succeeds_witness :
  Http.status_code
    (post_currency_convert
       (fun s => s)
       (fun _ _ =>
          Ok {| Upstream.status_code := 200;
                Upstream.status_message := "OK";
                Upstream.json :=
                  Ok (VDict [("info", VDict [("rate", VNum (Float (lit 925 3)))]);
                             ("result", VNum (Int 925))]) |})
       {| CurrencyConversionRequest.from_currency := "USD";
          CurrencyConversionRequest.to_currency := "EUR";
          CurrencyConversionRequest.amount := Float64.of_int 1000 |})
  = 200.
Proof.
  erewrite currency_conversion_succeeds
    with (converted := Float64.of_int 925) (rounded_rate := lit 925 3);
    [reflexivity | reflexivity | reflexivity | reflexivity
     | intros s [=] | reflexivity | reflexivity | reflexivity
     | reflexivity | reflexivity].
Defined.

(** X15: the checks on the payload assume a JSON object.  A decoded
    payload that is not an object, and an object whose [info] is null,
    a boolean or a number, leave [convert_currency] as an exception
    that is not an [HTTPException]: the answer is an internal server
    error, not 502. *)
Theorem malformed_payload_is_server_error upper client_get req r :
  client_get CURRENCY_API_URL (currency_params upper req) = Ok r ->
  Upstream.is_success r = true ->
  (forall data,
      Upstream.json r = Ok data ->
      (forall d, data <> VDict d) ->
      post_currency_convert upper client_get req
      = {| Http.status_code := 500;
           Http.body := Http.InternalServerError |})
  /\ (forall d info,
         Upstream.json r = Ok (VDict d) ->
         (forall s, get d "success" = Some s -> truthy s = true) ->
         get d "info" = Some info ->
         match info with
         | VNone | VBool _ | VNum _ => True
         | _ => False
         end ->
         post_currency_convert upper client_get req
         = {| Http.status_code := 500;
              Http.body := Http.InternalServerError |}).
Proof.
  intros Hr Hs. split.
  - intros data Hj Hnot.
    unfold post_currency_convert, convert_currency. cbv zeta.
    fold (currency_params upper req). rewrite Hr. cbn [bind].
    unfold Upstream.raise_for_status. rewrite Hs. cbn [bind].
    rewrite Hj. cbn [try_except bind].
    destruct data; try reflexivity. now elim (Hnot d).
  - intros d info Hj Hok Hinfo Hshape.
    rewrite (decoded_object upper client_get req r d Hr Hs Hj).
    unfold obj_get at 1. cbn [bind].
    assert (Ht : truthy match get d "success" with
                        | Some v => v
                        | None => VBool true
                        end = true).
    { destruct (get d "success") as [s|]; [now apply Hok | reflexivity]. }
    rewrite Ht. cbn [negb].
    unfold obj_contains at 1, contains. rewrite Hinfo. cbn [bind].
    unfold obj_getitem at 1, getitem. rewrite Hinfo. cbn [bind].
    destruct info; try contradiction; reflexivity.
Qed.

Lemma malformed_payload_is_server_error_witness :
  post_currency_convert
    (fun s => s)
    (fun _ _ =>
       Ok {| Upstream.status_code := 200;
             Upstream.status_message := "OK";
             Upstream.json :=
               Ok (VDict [("result", VNum (Int 925)); ("info", VNone)]) |})
    {| CurrencyConversionRequest.from_currency := "USD";
       CurrencyConversionRequest.to_currency := "EUR";
       CurrencyConversionRequest.amount := Float64.of_int 1000 |}
  = {| Http.status_code := 500; Http.body := Http.InternalServerError |}.
Proof.
  eapply (proj2 (malformed_payload_is_server_error (fun s => s) _ _
                   {| Upstream.status_code := 200;
                      Upstream.status_message := "OK";
                      Upstream.json :=
                        Ok (VDict [("result", VNum (Int 925));
                                   ("info", VNone)]) |}
                   eq_refl eq_refl)).
  - reflexivity.
  - intros s [=].
  - reflexivity.
  - exact I.
Defined.








(** ** NaN through the convert endpoint *)

Lemma rounded_float_nan (r : Float64.float) :
  exists converted,
    to_float (round_result (Float r)) = Ok converted
    /\ Float64.is_nan converted = Float64.is_nan r.
Proof.
  unfold round_result.
  destruct (num_lt (num_abs (Float r)) (Float (lit 1 6))) eqn:Etiny.
  - exists (S754_zero false). split; [reflexivity|].
    destruct r as [s|s| |s m e]; try reflexivity. discriminate Etiny.
  - assert (H : forall n,
               Float64.is_nan (Float64.round r n) = Float64.is_nan r).
    { intros n. destruct (Float64.is_nan r) eqn:E.
      - destruct r; try discriminate. reflexivity.
      - now apply round_not_nan. }
    repeat match goal with
           | |- context [if ?c then _ else _] => destruct c
           end; eexists; (split; [reflexivity | apply H]).
Qed.

(** X17: on a request between two units of a linear category,
    [convert_units] returns the model that echoes the request, and its
    converted value is NaN exactly when the request's value is NaN:
    neither the conversion nor the rounding makes a NaN out of a
    number. *)
Theorem converted_value_nan key f entry from_unit to_unit v :
  In (key, f) LINEAR_CONVERSIONS ->
  get UNIT_CATEGORIES key = Some entry ->
  contains (units entry) from_unit = true ->
  contains (units entry) to_unit = true ->
  exists converted,
    convert_units {| category := key; from_unit := from_unit;
                     to_unit := to_unit; value := v |}
    = Ok (echo_response
            {| category := key; from_unit := from_unit;
               to_unit := to_unit; value := v |} converted)
    /\ Float64.is_nan converted = Float64.is_nan v.
Proof.
  intros Hin Hg Hfrom Hto.
  destruct (linear_conversion_returns key f entry from_unit to_unit v
              Hin Hg Hfrom Hto) as [a [b [Ha [Hb Hr]]]].
  pose proof (linear_tables_positive key f entry Hin Hg) as Hpos.
  destruct (positive_scale_get entry from_unit a Hpos Ha) as [m [e ->]].
  destruct (positive_scale_get entry to_unit b Hpos Hb) as [n [e' ->]].
  destruct (rounded_float_nan
              (Float64.div (Float64.mul v (S754_finite false m e))
                           (S754_finite false n e')))
    as [converted [Hround Hnan]].
  exists converted. split.
  - unfold convert_units, getitem.
    cbn [UnitConversionRequest.category UnitConversionRequest.from_unit
         UnitConversionRequest.to_unit UnitConversionRequest.value].
    rewrite (linear_conversion_func key f Hin). cbn [bind].
    rewrite Hr. cbn [try_except bind]. rewrite Hround. reflexivity.
  - now rewrite Hnan, div_scale_nan, mul_scale_nan.
Qed.

Lemma converted_value_nan_witness :
  exists converted,
    convert_units {| category := "length"; from_unit := "miles";
                     to_unit := "millimeters"; value := max_float |}
    = Ok (echo_response
            {| category := "length"; from_unit := "miles";
               to_unit := "millimeters"; value := max_float |} converted)
    /\ Float64.is_nan converted = false.
Proof.
  assert (Hg : get UNIT_CATEGORIES "length" = Some ?[entry]) by reflexivity.
  exact (converted_value_nan "length" convert_length _
           "miles" "millimeters" max_float
           (or_introl eq_refl) Hg eq_refl eq_refl).
Defined.
